(** * DAOMAFHE: the batch ledger and decryption coordinator

    A shallow embedding of the Solidity contract [DAOMAFHE]
    (pragma ^0.8.24) and the properties of its batch lifecycle and of its
    request/callback protocol.

    Storage is a record of the contract's state variables; every Solidity
    [mapping] is a finite map read with the type's zero value as default.
    A function body is a computation in a small state-and-revert monad that
    keeps the storage reached at the point of a [revert], so that the
    transaction wrapper [transact] can be seen to discard it.  Unsigned
    256-bit arithmetic is checked, as in Solidity 0.8: an overflow reverts
    with [Err.Panic].

    The FHE library and keccak256 are external to the contract and are taken
    as an interface ([FHE.Lib]).

    Error kinds of the specification and the reverts of the source:
    Unauthorized is [NotOwner]/[NotProvider], SystemPaused is [Paused],
    BatchStillOpen is [BatchNotClosed], and BatchAlreadyOpen,
    AlreadyContributed and NoData are the three [InvalidArgument] reverts of
    [openBatch], [submitData] and [requestBatchResultDecryption]. *)

From stdpp Require Import base option gmap.
From Stdlib Require Import ZArith List Lia.
From Stdlib.Strings Require Import Byte.
Import ListNotations.

Open Scope Z_scope.

(** ** Basic types *)

Abbreviation address := Z (only parsing).
Abbreviation uint256 := Z (only parsing).
Abbreviation bytes32 := Z (only parsing).
Abbreviation bytes := (list byte) (only parsing).

Definition max_uint256 : Z := 2 ^ 256 - 1.

(** ** The FHE library, as the contract uses it *)

Module FHE.
Class Lib := {
  euint32 : Type;
  (** what a storage slot of type [euint32] holds before it is written *)
  zero_handle : euint32;
  asEuint32 : uint256 -> euint32;
  add : euint32 -> euint32 -> euint32;
  toBytes32 : euint32 -> bytes32;
  (** [(initialized, pubKey)] *)
  isInitialized : euint32 -> bool * bytes32;
  init : euint32 -> bytes32 -> euint32;
  (** [true] when the call returns, [false] when it reverts *)
  checkSignatures : uint256 -> bytes -> bytes -> bool;
  (** [keccak256(abi.encode(cts, addr))] *)
  keccak256_encode : list bytes32 -> address -> bytes32
}.
End FHE.

(** ** Errors and events *)

Module Err.
Inductive t :=
| NotOwner
| NotProvider
| Paused
| CooldownActive
| BatchNotOpen
| BatchClosed
| InvalidArgument
| ReplayDetected
| StateMismatch
| DecryptionFailed
| BatchNotClosed   (* used by requestBatchResultDecryption *)
| Panic            (* checked arithmetic overflow *)
| DecodeError.     (* abi.decode on fewer than 32 bytes *)
End Err.

Module Ev.
Inductive t :=
| ProviderAdded (provider : address)
| ProviderRemoved (provider : address)
| Paused (account : address)
| Unpaused (account : address)
| CooldownSet (oldCooldownSeconds newCooldownSeconds : uint256)
| BatchOpened (batchId : uint256)
| BatchClosed (batchId : uint256)
| DataSubmitted (provider : address) (batchId encryptedValue : uint256)
| DecryptionRequested (requestId batchId : uint256)
| DecryptionCompleted (requestId batchId result : uint256).
End Ev.

(** ** Storage *)

Record DecryptionContext := {
  batchId : uint256;
  stateHash : bytes32;
  processed : bool
}.

Definition zero_context : DecryptionContext :=
  {| batchId := 0; stateHash := 0; processed := false |}.

Definition mark_processed (c : DecryptionContext) : DecryptionContext :=
  {| batchId := batchId c; stateHash := stateHash c; processed := true |}.

(** Reading a Solidity mapping: the zero value where nothing was written. *)
Definition rd {K V} `{Countable K} (zero : V) (m : gmap K V) (k : K) : V :=
  default zero (m !! k).

Section Contract.
Context {L : FHE.Lib}.

Record State := {
  owner : address;
  providers : gmap address bool;
  paused : bool;
  cooldownSeconds : uint256;
  lastSubmissionTime : gmap address uint256;
  lastDecryptionRequestTime : gmap address uint256;
  currentBatchId : uint256;
  batchOpen : bool;
  encryptedDataSum : gmap uint256 FHE.euint32;
  dataCount : gmap uint256 uint256;
  hasSubmitted : gmap (uint256 * address) bool;
  decryptionContexts : gmap uint256 DecryptionContext
}.

Definition zero_state : State :=
  {| owner := 0; providers := ∅; paused := false; cooldownSeconds := 0;
     lastSubmissionTime := ∅; lastDecryptionRequestTime := ∅;
     currentBatchId := 0; batchOpen := false; encryptedDataSum := ∅;
     dataCount := ∅; hasSubmitted := ∅; decryptionContexts := ∅ |}.

Definition set_owner v (s : State) : State :=
  {| owner := v; providers := providers s; paused := paused s;
     cooldownSeconds := cooldownSeconds s;
     lastSubmissionTime := lastSubmissionTime s;
     lastDecryptionRequestTime := lastDecryptionRequestTime s;
     currentBatchId := currentBatchId s; batchOpen := batchOpen s;
     encryptedDataSum := encryptedDataSum s; dataCount := dataCount s;
     hasSubmitted := hasSubmitted s;
     decryptionContexts := decryptionContexts s |}.

Definition set_providers v (s : State) : State :=
  {| owner := owner s; providers := v; paused := paused s;
     cooldownSeconds := cooldownSeconds s;
     lastSubmissionTime := lastSubmissionTime s;
     lastDecryptionRequestTime := lastDecryptionRequestTime s;
     currentBatchId := currentBatchId s; batchOpen := batchOpen s;
     encryptedDataSum := encryptedDataSum s; dataCount := dataCount s;
     hasSubmitted := hasSubmitted s;
     decryptionContexts := decryptionContexts s |}.

Definition set_paused v (s : State) : State :=
  {| owner := owner s; providers := providers s; paused := v;
     cooldownSeconds := cooldownSeconds s;
     lastSubmissionTime := lastSubmissionTime s;
     lastDecryptionRequestTime := lastDecryptionRequestTime s;
     currentBatchId := currentBatchId s; batchOpen := batchOpen s;
     encryptedDataSum := encryptedDataSum s; dataCount := dataCount s;
     hasSubmitted := hasSubmitted s;
     decryptionContexts := decryptionContexts s |}.

Definition set_cooldownSeconds v (s : State) : State :=
  {| owner := owner s; providers := providers s; paused := paused s;
     cooldownSeconds := v;
     lastSubmissionTime := lastSubmissionTime s;
     lastDecryptionRequestTime := lastDecryptionRequestTime s;
     currentBatchId := currentBatchId s; batchOpen := batchOpen s;
     encryptedDataSum := encryptedDataSum s; dataCount := dataCount s;
     hasSubmitted := hasSubmitted s;
     decryptionContexts := decryptionContexts s |}.

Definition set_lastSubmissionTime v (s : State) : State :=
  {| owner := owner s; providers := providers s; paused := paused s;
     cooldownSeconds := cooldownSeconds s;
     lastSubmissionTime := v;
     lastDecryptionRequestTime := lastDecryptionRequestTime s;
     currentBatchId := currentBatchId s; batchOpen := batchOpen s;
     encryptedDataSum := encryptedDataSum s; dataCount := dataCount s;
     hasSubmitted := hasSubmitted s;
     decryptionContexts := decryptionContexts s |}.

Definition set_lastDecryptionRequestTime v (s : State) : State :=
  {| owner := owner s; providers := providers s; paused := paused s;
     cooldownSeconds := cooldownSeconds s;
     lastSubmissionTime := lastSubmissionTime s;
     lastDecryptionRequestTime := v;
     currentBatchId := currentBatchId s; batchOpen := batchOpen s;
     encryptedDataSum := encryptedDataSum s; dataCount := dataCount s;
     hasSubmitted := hasSubmitted s;
     decryptionContexts := decryptionContexts s |}.

Definition set_currentBatchId v (s : State) : State :=
  {| owner := owner s; providers := providers s; paused := paused s;
     cooldownSeconds := cooldownSeconds s;
     lastSubmissionTime := lastSubmissionTime s;
     lastDecryptionRequestTime := lastDecryptionRequestTime s;
     currentBatchId := v; batchOpen := batchOpen s;
     encryptedDataSum := encryptedDataSum s; dataCount := dataCount s;
     hasSubmitted := hasSubmitted s;
     decryptionContexts := decryptionContexts s |}.

Definition set_batchOpen v (s : State) : State :=
  {| owner := owner s; providers := providers s; paused := paused s;
     cooldownSeconds := cooldownSeconds s;
     lastSubmissionTime := lastSubmissionTime s;
     lastDecryptionRequestTime := lastDecryptionRequestTime s;
     currentBatchId := currentBatchId s; batchOpen := v;
     encryptedDataSum := encryptedDataSum s; dataCount := dataCount s;
     hasSubmitted := hasSubmitted s;
     decryptionContexts := decryptionContexts s |}.

Definition set_encryptedDataSum v (s : State) : State :=
  {| owner := owner s; providers := providers s; paused := paused s;
     cooldownSeconds := cooldownSeconds s;
     lastSubmissionTime := lastSubmissionTime s;
     lastDecryptionRequestTime := lastDecryptionRequestTime s;
     currentBatchId := currentBatchId s; batchOpen := batchOpen s;
     encryptedDataSum := v; dataCount := dataCount s;
     hasSubmitted := hasSubmitted s;
     decryptionContexts := decryptionContexts s |}.

Definition set_dataCount v (s : State) : State :=
  {| owner := owner s; providers := providers s; paused := paused s;
     cooldownSeconds := cooldownSeconds s;
     lastSubmissionTime := lastSubmissionTime s;
     lastDecryptionRequestTime := lastDecryptionRequestTime s;
     currentBatchId := currentBatchId s; batchOpen := batchOpen s;
     encryptedDataSum := encryptedDataSum s; dataCount := v;
     hasSubmitted := hasSubmitted s;
     decryptionContexts := decryptionContexts s |}.

Definition set_hasSubmitted v (s : State) : State :=
  {| owner := owner s; providers := providers s; paused := paused s;
     cooldownSeconds := cooldownSeconds s;
     lastSubmissionTime := lastSubmissionTime s;
     lastDecryptionRequestTime := lastDecryptionRequestTime s;
     currentBatchId := currentBatchId s; batchOpen := batchOpen s;
     encryptedDataSum := encryptedDataSum s; dataCount := dataCount s;
     hasSubmitted := v;
     decryptionContexts := decryptionContexts s |}.

Definition set_decryptionContexts v (s : State) : State :=
  {| owner := owner s; providers := providers s; paused := paused s;
     cooldownSeconds := cooldownSeconds s;
     lastSubmissionTime := lastSubmissionTime s;
     lastDecryptionRequestTime := lastDecryptionRequestTime s;
     currentBatchId := currentBatchId s; batchOpen := batchOpen s;
     encryptedDataSum := encryptedDataSum s; dataCount := dataCount s;
     hasSubmitted := hasSubmitted s;
     decryptionContexts := v |}.

(** Accessors with the zero defaults of each mapping. *)
Definition isProvider (s : State) (a : address) : bool :=
  rd false (providers s) a.
Definition lastSubmission (s : State) (a : address) : uint256 :=
  rd 0 (lastSubmissionTime s) a.
Definition lastDecryptionRequest (s : State) (a : address) : uint256 :=
  rd 0 (lastDecryptionRequestTime s) a.
Definition dataSum (s : State) (b : uint256) : FHE.euint32 :=
  rd FHE.zero_handle (encryptedDataSum s) b.
Definition count (s : State) (b : uint256) : uint256 :=
  rd 0 (dataCount s) b.
Definition submitted (s : State) (b : uint256) (a : address) : bool :=
  rd false (hasSubmitted s) (b, a).
Definition context (s : State) (r : uint256) : DecryptionContext :=
  rd zero_context (decryptionContexts s) r.

(** ** The execution monad *)

(** What a call sees of its surroundings: the caller, the block's time, the
    contract's own address, and the identifier that the decryption oracle
    hands out if [FHE.requestDecryption] is called. *)
Record Env := {
  msg_sender : address;
  block_timestamp : uint256;
  this : address;
  issued_requestId : uint256
}.

(** A body either returns, with the storage and the events so far, or
    reverts; [Revert] keeps the storage as the body left it, which is not
    the storage the transaction ends with (see [transact]). *)
Inductive Outcome (A : Type) :=
| Return (a : A) (s : State) (log : list Ev.t)
| Revert (e : Err.t) (s : State).
Arguments Return {A}.
Arguments Revert {A}.

Definition M (A : Type) := State -> list Ev.t -> Outcome A.

Definition ret {A} (a : A) : M A := fun s l => Return a s l.

Definition bind {A B} (m : M A) (k : A -> M B) : M B :=
  fun s l =>
    match m s l with
    | Return a s' l' => k a s' l'
    | Revert e s' => Revert e s'
    end.

Definition revert {A} (e : Err.t) : M A := fun s _ => Revert e s.
Definition sload {A} (f : State -> A) : M A := fun s l => Return (f s) s l.
Definition sstore (f : State -> State) : M unit := fun s l => Return tt (f s) l.
Definition emit (e : Ev.t) : M unit := fun s l => Return tt s (l ++ [e]).
Definition revert_if (c : bool) (e : Err.t) : M unit :=
  if c then revert e else ret tt.

End Contract.

Arguments Return {L A} a s log.
Arguments Revert {L A} e s.

Declare Scope sol_scope.
Delimit Scope sol_scope with sol.
Notation "'let*' x := m 'in' k" := (bind m (fun x => k))
  (at level 10, x name, m at level 100, k at level 200) : sol_scope.
Notation "m ;; k" := (bind m (fun _ => k))
  (at level 100, k at level 200, right associativity) : sol_scope.

Local Open Scope sol_scope.

(** ** The contract *)

Section Functions.
Context {L : FHE.Lib}.

(** Checked [uint256] addition: Solidity 0.8 reverts on overflow. *)
Definition checked_add (a b : uint256) : M uint256 :=
  if a + b <=? max_uint256 then ret (a + b) else revert Err.Panic.

(** [abi.decode(data, (uint256))]: the first 32 bytes, big-endian; fewer
    than 32 bytes revert. *)
Definition be_uint (l : bytes) : Z :=
  fold_left (fun acc b => acc * 256 + Z.of_N (Byte.to_N b)) l 0.

Definition abi_decode_uint256 (data : bytes) : option uint256 :=
  if (length data <? 32)%nat then None else Some (be_uint (firstn 32 data)).

(** *** Modifiers *)

Definition onlyOwner (env : Env) : M unit :=
  let* o := sload owner in
  revert_if (negb (msg_sender env =? o)) Err.NotOwner.

Definition onlyProvider (env : Env) : M unit :=
  let* p := sload (fun s => isProvider s (msg_sender env)) in
  revert_if (negb p) Err.NotProvider.

Definition whenNotPaused : M unit :=
  let* p := sload paused in
  revert_if p Err.Paused.

Definition submissionCooldown (env : Env) (submitter : address) : M unit :=
  let* last := sload (fun s => lastSubmission s submitter) in
  let* cd := sload cooldownSeconds in
  let* ready := checked_add last cd in
  revert_if (block_timestamp env <? ready) Err.CooldownActive.

Definition decryptionRequestCooldown (env : Env) (requester : address)
  : M unit :=
  let* last := sload (fun s => lastDecryptionRequest s requester) in
  let* cd := sload cooldownSeconds in
  let* ready := checked_add last cd in
  revert_if (block_timestamp env <? ready) Err.CooldownActive.

(** *** Internal functions *)

Definition _hashCiphertexts (env : Env) (cts : list bytes32) : bytes32 :=
  FHE.keccak256_encode cts (this env).

(** The argument is a memory value; the function returns what that memory
    holds afterwards. *)
Definition _initIfNeeded (val : FHE.euint32) : FHE.euint32 :=
  let '(initialized, pubKey) := FHE.isInitialized val in
  if initialized then val else FHE.init val pubKey.

(** Declared in the source, called by no function of the contract. *)
Definition _requireInitialized (val : FHE.euint32) : M unit :=
  let '(initialized, _) := FHE.isInitialized val in
  revert_if (negb initialized) Err.InvalidArgument.

(** *** Constructor and external functions *)

Definition constructor (env : Env) : M unit :=
  sstore (set_owner (msg_sender env));;
  sstore (fun s => set_providers (<[msg_sender env := true]> (providers s)) s);;
  sstore (set_cooldownSeconds 60);;
  sstore (set_currentBatchId 0);;
  sstore (set_batchOpen false).

Definition addProvider (env : Env) (provider : address) : M unit :=
  onlyOwner env;;
  sstore (fun s => set_providers (<[provider := true]> (providers s)) s);;
  emit (Ev.ProviderAdded provider).

Definition removeProvider (env : Env) (provider : address) : M unit :=
  onlyOwner env;;
  sstore (fun s => set_providers (<[provider := false]> (providers s)) s);;
  emit (Ev.ProviderRemoved provider).

Definition setCooldownSeconds (env : Env) (newCooldownSeconds : uint256)
  : M unit :=
  onlyOwner env;;
  revert_if (newCooldownSeconds =? 0) Err.InvalidArgument;;
  let* oldCooldownSeconds := sload cooldownSeconds in
  sstore (set_cooldownSeconds newCooldownSeconds);;
  emit (Ev.CooldownSet oldCooldownSeconds newCooldownSeconds).

Definition pause (env : Env) : M unit :=
  onlyOwner env;;
  whenNotPaused;;
  sstore (set_paused true);;
  emit (Ev.Paused (msg_sender env)).

Definition unpause (env : Env) : M unit :=
  onlyOwner env;;
  sstore (set_paused false);;
  emit (Ev.Unpaused (msg_sender env)).

Definition openBatch (env : Env) : M unit :=
  onlyOwner env;;
  whenNotPaused;;
  let* open := sload batchOpen in
  revert_if open Err.InvalidArgument;;
  let* id := sload currentBatchId in
  let* id' := checked_add id 1 in
  sstore (set_currentBatchId id');;
  sstore (set_batchOpen true);;
  sstore (fun s => set_encryptedDataSum
            (<[currentBatchId s := FHE.asEuint32 0]> (encryptedDataSum s)) s);;
  sstore (fun s => set_dataCount (<[currentBatchId s := 0]> (dataCount s)) s);;
  let* id := sload currentBatchId in
  emit (Ev.BatchOpened id).

Definition closeBatch (env : Env) : M unit :=
  onlyOwner env;;
  whenNotPaused;;
  let* open := sload batchOpen in
  revert_if (negb open) Err.BatchNotOpen;;
  sstore (set_batchOpen false);;
  let* id := sload currentBatchId in
  emit (Ev.BatchClosed id).

Definition submitData (env : Env) (encryptedValue : uint256) : M unit :=
  onlyProvider env;;
  whenNotPaused;;
  submissionCooldown env (msg_sender env);;
  let* open := sload batchOpen in
  revert_if (negb open) Err.BatchNotOpen;;
  let* already :=
    sload (fun s => submitted s (currentBatchId s) (msg_sender env)) in
  revert_if already Err.InvalidArgument;;
  let encryptedVal := _initIfNeeded (FHE.asEuint32 encryptedValue) in
  sstore (fun s => set_encryptedDataSum
            (<[currentBatchId s :=
                 FHE.add (dataSum s (currentBatchId s)) encryptedVal]>
               (encryptedDataSum s)) s);;
  let* n := sload (fun s => count s (currentBatchId s)) in
  let* n' := checked_add n 1 in
  sstore (fun s => set_dataCount (<[currentBatchId s := n']> (dataCount s)) s);;
  sstore (fun s => set_hasSubmitted
            (<[(currentBatchId s, msg_sender env) := true]> (hasSubmitted s)) s);;
  sstore (fun s => set_lastSubmissionTime
            (<[msg_sender env := block_timestamp env]> (lastSubmissionTime s)) s);;
  let* id := sload currentBatchId in
  emit (Ev.DataSubmitted (msg_sender env) id encryptedValue).

Definition requestBatchResultDecryption (env : Env) : M unit :=
  onlyProvider env;;
  whenNotPaused;;
  decryptionRequestCooldown env (msg_sender env);;
  let* open := sload batchOpen in
  revert_if open Err.BatchNotClosed;;
  let* n := sload (fun s => count s (currentBatchId s)) in
  revert_if (n =? 0) Err.InvalidArgument;;
  (* _initIfNeeded works on a memory copy of the slot: storage is not
     written *)
  let* copy := sload (fun s => _initIfNeeded (dataSum s (currentBatchId s))) in
  let* sum := sload (fun s => dataSum s (currentBatchId s)) in
  let cts := [FHE.toBytes32 sum] in
  let stateHash := _hashCiphertexts env cts in
  let requestId := issued_requestId env in
  sstore (fun s => set_decryptionContexts
            (<[requestId := {| batchId := currentBatchId s;
                               stateHash := stateHash;
                               processed := false |}]>
               (decryptionContexts s)) s);;
  sstore (fun s => set_lastDecryptionRequestTime
            (<[msg_sender env := block_timestamp env]>
               (lastDecryptionRequestTime s)) s);;
  let* id := sload currentBatchId in
  emit (Ev.DecryptionRequested requestId id).

(** [decryptionContexts[requestId].processed = true] *)
Definition set_processed (requestId : uint256) : M unit :=
  sstore (fun s => set_decryptionContexts
            (<[requestId := mark_processed (context s requestId)]>
               (decryptionContexts s)) s).

Definition myCallback (env : Env) (requestId : uint256)
    (cleartexts proof : bytes) : M unit :=
  let* done := sload (fun s => processed (context s requestId)) in
  revert_if done Err.ReplayDetected;;
  let* batchId := sload (fun s => batchId (context s requestId)) in
  let* currentEncryptedSum := sload (fun s => dataSum s batchId) in
  let initialized := fst (FHE.isInitialized currentEncryptedSum) in
  (if negb initialized
   then set_processed requestId;; revert Err.DecryptionFailed
   else ret tt);;
  let currentCts := [FHE.toBytes32 currentEncryptedSum] in
  let currentStateHash := _hashCiphertexts env currentCts in
  let* stored := sload (fun s => stateHash (context s requestId)) in
  (if negb (currentStateHash =? stored)
   then set_processed requestId;; revert Err.StateMismatch
   else ret tt);;
  if FHE.checkSignatures requestId cleartexts proof
  then
    match abi_decode_uint256 cleartexts with
    | Some sum =>
        set_processed requestId;;
        emit (Ev.DecryptionCompleted requestId batchId sum)
    | None => revert Err.DecodeError
    end
  else set_processed requestId;; revert Err.DecryptionFailed.

(** *** Transactions *)

Inductive Msg :=
| AddProvider (provider : address)
| RemoveProvider (provider : address)
| SetCooldownSeconds (newCooldownSeconds : uint256)
| Pause
| Unpause
| OpenBatch
| CloseBatch
| SubmitData (encryptedValue : uint256)
| RequestBatchResultDecryption
| MyCallback (requestId : uint256) (cleartexts proof : bytes).

Definition dispatch (env : Env) (msg : Msg) : M unit :=
  match msg with
  | AddProvider p => addProvider env p
  | RemoveProvider p => removeProvider env p
  | SetCooldownSeconds n => setCooldownSeconds env n
  | Pause => pause env
  | Unpause => unpause env
  | OpenBatch => openBatch env
  | CloseBatch => closeBatch env
  | SubmitData v => submitData env v
  | RequestBatchResultDecryption => requestBatchResultDecryption env
  | MyCallback r c p => myCallback env r c p
  end.

Inductive Receipt :=
| Committed (log : list Ev.t)
| Reverted (e : Err.t).

(** A transaction commits the storage its body returns, or reverts: the
    storage is then the one before the call, whatever the body wrote. *)
Definition transact (m : M unit) (s : State) : State * Receipt :=
  match m s [] with
  | Return _ s' log => (s', Committed log)
  | Revert e _ => (s, Reverted e)
  end.

Definition call (env : Env) (msg : Msg) (s : State) : State * Receipt :=
  transact (dispatch env msg) s.

(** Deployment runs the constructor on zeroed storage. *)
Definition deploy (env : Env) : State :=
  fst (transact (constructor env) zero_state).

(** Traces of transactions: a reverted call leaves the storage as it was
    and the next call runs on it. *)
Fixpoint run (tr : list (Env * Msg)) (s : State) : State :=
  match tr with
  | [] => s
  | (env, msg) :: tr' => run tr' (fst (call env msg s))
  end.

(** The storages the contract can be in: that after deployment, and that
    after any call from a reachable one. *)
Inductive reachable : State -> Prop :=
| reachable_deploy env : reachable (deploy env)
| reachable_call env msg s : reachable s -> reachable (fst (call env msg s)).

(** ** Vocabulary of the properties *)

(** The calls whose body runs under [whenNotPaused]. *)
Definition pause_gated (msg : Msg) : bool :=
  match msg with
  | Pause | OpenBatch | CloseBatch | SubmitData _
  | RequestBatchResultDecryption => true
  | _ => false
  end.

(** The role check that a call makes first, and the error it raises. *)
Definition authorised (env : Env) (s : State) (msg : Msg) : bool :=
  match msg with
  | SubmitData _ | RequestBatchResultDecryption =>
      isProvider s (msg_sender env)
  | MyCallback _ _ _ => true
  | _ => msg_sender env =? owner s
  end.

Definition role_error (msg : Msg) : Err.t :=
  match msg with
  | SubmitData _ | RequestBatchResultDecryption => Err.NotProvider
  | _ => Err.NotOwner
  end.

(** A cooldown has elapsed at [now] when the deadline [last + cooldown] is
    computed without overflow and is not after [now]. *)
Definition cooldown_elapsed (last cooldown now : uint256) : Prop :=
  last + cooldown <= max_uint256 /\ last + cooldown <= now.

Definition submission_cooldown_elapsed (env : Env) (s : State) : Prop :=
  cooldown_elapsed (lastSubmission s (msg_sender env)) (cooldownSeconds s)
    (block_timestamp env).

Definition request_cooldown_elapsed (env : Env) (s : State) : Prop :=
  cooldown_elapsed (lastDecryptionRequest s (msg_sender env))
    (cooldownSeconds s) (block_timestamp env).

(** The oracle hands out an identifier that has no stored context yet. *)
Definition issues_fresh_id (env : Env) (msg : Msg) (s : State) : Prop :=
  msg = RequestBatchResultDecryption ->
  decryptionContexts s !! issued_requestId env = None.

Fixpoint fresh_ids (tr : list (Env * Msg)) (s : State) : Prop :=
  match tr with
  | [] => True
  | (env, msg) :: tr' =>
      issues_fresh_id env msg s /\ fresh_ids tr' (fst (call env msg s))
  end.

(** The commitment recomputed by [myCallback] for request [r]. *)
Definition recomputed_commitment (env : Env) (s : State) (r : uint256)
  : bytes32 :=
  _hashCiphertexts env
    [FHE.toBytes32 (dataSum s (batchId (context s r)))].

Definition accumulator_initialized (s : State) (r : uint256) : bool :=
  fst (FHE.isInitialized (dataSum s (batchId (context s r)))).

(** The storages reachable when every call runs at the contract's own
    address [self]. *)
Inductive reachable_at (self : address) : State -> Prop :=
| reachable_at_deploy env : reachable_at self (deploy env)
| reachable_at_call env msg s :
    this env = self -> reachable_at self s ->
    reachable_at self (fst (call env msg s)).

(** Every stored context names a batch that is closed for good, and its
    commitment is the one of that batch's accumulator as it is now. *)
Record commitments_current (self : address) (s : State) : Prop := {
  cc_id : forall r ctx, decryptionContexts s !! r = Some ctx ->
                        batchId ctx <= currentBatchId s;
  cc_closed : forall r ctx, decryptionContexts s !! r = Some ctx ->
                            batchId ctx = currentBatchId s ->
                            batchOpen s = false;
  cc_hash : forall r ctx, decryptionContexts s !! r = Some ctx ->
              stateHash ctx
              = FHE.keccak256_encode
                  [FHE.toBytes32 (dataSum s (batchId ctx))] self
}.

(** The fields only the owner's calls write. *)
Definition admin_fields (s : State) :=
  (owner s, providers s, paused s, cooldownSeconds s, currentBatchId s,
   batchOpen s).

(** The entries of [hasSubmitted] that record a contributor of batch [b]. *)
Definition contributors (s : State) (b : uint256)
  : gmap (uint256 * address) bool :=
  base.filter (fun kv : uint256 * address * bool => kv.1.1 = b /\ kv.2 = true)
    (hasSubmitted s).

(** The same surroundings, seen by another caller. *)
Definition as_sender (env : Env) (p : address) : Env :=
  {| msg_sender := p; block_timestamp := block_timestamp env;
     this := this env; issued_requestId := issued_requestId env |}.

(** One submission per entry of a list of providers and values. *)
Definition submit_by (env : Env) (pv : address * uint256) : Env * Msg :=
  (as_sender env pv.1, SubmitData pv.2).

(** What one submission makes of the accumulator. *)
Definition accumulate (acc : FHE.euint32) (pv : address * uint256)
  : FHE.euint32 :=
  FHE.add acc (_initIfNeeded (FHE.asEuint32 pv.2)).

(** [p] may submit to the open batch at the time of [env]. *)
Definition can_submit (env : Env) (s : State) (p : address) : Prop :=
  isProvider s p = true /\
  submitted s (currentBatchId s) p = false /\
  cooldown_elapsed (lastSubmission s p) (cooldownSeconds s)
    (block_timestamp env).

(** The event a committed call logs. *)
Definition announced (env : Env) (s : State) (msg : Msg) (ev : Ev.t) : Prop :=
  match msg with
  | AddProvider p => ev = Ev.ProviderAdded p
  | RemoveProvider p => ev = Ev.ProviderRemoved p
  | SetCooldownSeconds n => ev = Ev.CooldownSet (cooldownSeconds s) n
  | Pause => ev = Ev.Paused (msg_sender env)
  | Unpause => ev = Ev.Unpaused (msg_sender env)
  | OpenBatch => ev = Ev.BatchOpened (currentBatchId s + 1)
  | CloseBatch => ev = Ev.BatchClosed (currentBatchId s)
  | SubmitData v =>
      ev = Ev.DataSubmitted (msg_sender env) (currentBatchId s) v
  | RequestBatchResultDecryption =>
      ev = Ev.DecryptionRequested (issued_requestId env) (currentBatchId s)
  | MyCallback r c p =>
      exists result,
        abi_decode_uint256 c = Some result /\
        ev = Ev.DecryptionCompleted r (batchId (context s r)) result
  end.

(** Every batch slot that was ever written belongs to a batch that was
    opened: its id lies between 1 and the current batch id. *)
Record slots_bounded (s : State) : Prop := {
  sb_id : 0 <= currentBatchId s;
  sb_open : batchOpen s = true -> 1 <= currentBatchId s;
  sb_sum : forall b, is_Some (encryptedDataSum s !! b) ->
                     1 <= b <= currentBatchId s;
  sb_sub : forall b a, is_Some (hasSubmitted s !! (b, a)) ->
                       1 <= b <= currentBatchId s
}.

End Functions.

(** * A concrete library and scenarios *)

(** A transparent stand-in for the FHE library: the handle of a ciphertext
    is its 32-bit plaintext plus one, so that the zero handle of unwritten
    storage is the only uninitialised one; a proof is valid when it is the
    single byte 01. *)
Module Clear.

Definition checkSignatures (requestId : uint256) (cleartexts proof : bytes)
  : bool :=
  match proof with
  | [x01%byte] => true
  | _ => false
  end.

Definition lib : FHE.Lib :=
  {| FHE.euint32 := Z;
     FHE.zero_handle := 0;
     FHE.asEuint32 := fun v => v mod 2 ^ 32 + 1;
     FHE.add := fun a b => (a - 1 + (b - 1)) mod 2 ^ 32 + 1;
     FHE.toBytes32 := fun h => h;
     FHE.isInitialized := fun h => (negb (h =? 0), 0);
     FHE.init := fun h _ => if h =? 0 then 1 else h;
     FHE.checkSignatures := checkSignatures;
     FHE.keccak256_encode := fun cts a => fold_right (fun c acc => c + 31 * acc) a cts + 7 |}.

End Clear.

Module Scenario.

Definition alice : address := 1.
Definition bob : address := 2.

(** A call by [sender] at time [time], were the oracle asked it would
    issue identifier [rid]. *)
Definition env_of (sender : address) (time rid : uint256) : Env :=
  {| msg_sender := sender; block_timestamp := time; this := 100;
     issued_requestId := rid |}.

Definition by_ (sender : address) (time : uint256) : Env :=
  env_of sender time 1.

(** The 32-byte big-endian encoding of a small number. *)
Definition word (n : byte) : bytes := repeat x00%byte 31 ++ [n].

Definition deployed : State (L := Clear.lib) := deploy (by_ alice 1000).

(** Alice opens batch 1. *)
Definition opened : State (L := Clear.lib) :=
  run [(by_ alice 1000, OpenBatch)] deployed.

(** Alice opens batch 1 and pauses the contract. *)
Definition opened_paused : State (L := Clear.lib) :=
  run [(by_ alice 1000, Pause)] opened.

(** Alice submits 10 to batch 1 at time 1000. *)
Definition submitted_once : State (L := Clear.lib) :=
  run [(by_ alice 1000, SubmitData 10)] opened.

(** Batch 1 holds 10, is closed, and request 1 is pending for it. *)
Definition requested : State (L := Clear.lib) :=
  run [(by_ alice 1100, CloseBatch);
       (by_ alice 1100, RequestBatchResultDecryption)] submitted_once.

(** Request 1 pending while the contract is paused. *)
Definition requested_paused : State (L := Clear.lib) :=
  run [(by_ alice 1200, Pause)] requested.

(** Request 1 resolved with the cleartext 10 and a valid proof. *)
Definition resolved : State (L := Clear.lib) :=
  run [(by_ bob 1300, MyCallback 1 (word x0a) [x01%byte])] requested.

(** What follows the resolution: a second request for batch 1, given the
    fresh identifier 2; batch 2 is opened; bob is made a provider and
    submits. *)
Definition aftermath : list (Env * Msg) :=
  [(env_of alice 1400 2, RequestBatchResultDecryption);
   (by_ alice 1500, OpenBatch);
   (by_ alice 1500, AddProvider bob);
   (by_ bob 1600, SubmitData 20)].

(** A batch that was opened and closed without any contribution. *)
Definition closed_empty : State (L := Clear.lib) :=
  run [(by_ alice 1000, CloseBatch)] opened.

(** A storage whose batch counter is at its last value. *)
Definition at_max_id : State (L := Clear.lib) :=
  set_currentBatchId max_uint256 deployed.

(** Batch 1 holds alice's 10 and is closed; nothing was requested yet. *)
Definition closed_once : State (L := Clear.lib) :=
  run [(by_ alice 1100, CloseBatch)] submitted_once.

(** The owner opens batch 1, alice and bob submit 10 and 20, the owner
    closes the batch and alice requests the decryption. *)
Definition two_providers : list (Env * Msg) :=
  [(by_ alice 1000, AddProvider bob);
   (by_ alice 1000, OpenBatch);
   (by_ alice 1000, SubmitData 10);
   (by_ bob 1000, SubmitData 20);
   (by_ alice 1100, CloseBatch);
   (by_ alice 1100, RequestBatchResultDecryption)].

(** Batch 1 is open, alice and bob are providers, nobody has submitted. *)
Definition with_bob : State (L := Clear.lib) :=
  run [(by_ alice 1000, AddProvider bob)] opened.

Definition contributions : list (address * uint256) :=
  [(alice, 10); (bob, 20)].

(** After alice's submission the owner sets the largest cooldown. *)
Definition locked : State (L := Clear.lib) :=
  run [(by_ alice 1100, SetCooldownSeconds max_uint256)] submitted_once.

(** After batch 1 was closed: batch 2 is opened and alice submits to it. *)
Definition next_batch : list (Env * Msg) :=
  [(by_ alice 1200, OpenBatch); (by_ alice 1200, SubmitData 7)].

End Scenario.

(** * Reasoning about calls *)

Ltac unfold_sol :=
  unfold call, transact, dispatch,
    addProvider, removeProvider, setCooldownSeconds, pause, unpause,
    openBatch, closeBatch, submitData, requestBatchResultDecryption,
    myCallback, set_processed,
    onlyOwner, onlyProvider, whenNotPaused,
    submissionCooldown, decryptionRequestCooldown, checked_add,
    revert_if, bind, ret, sload, sstore, emit, revert in *.

(** Run a call symbolically, splitting on every test the body makes. *)
Ltac sol_cases :=
  unfold_sol; cbn;
  repeat match goal with
    | |- context [if ?c then _ else _] => destruct c eqn:?; cbn
    | |- context [match ?o with Some _ => _ | None => _ end] =>
        destruct o eqn:?; cbn
    end.

Ltac unfold_acc :=
  unfold isProvider, lastSubmission, lastDecryptionRequest, dataSum, count,
    submitted, context, rd in *; cbn in *.

Section Properties.
Context {L : FHE.Lib}.

Implicit Types (s : State) (env : Env) (msg : Msg) (e : Err.t).
Implicit Types (tr : list (Env * Msg)) (r b a : Z).

(** ** Frame lemmas over arbitrary calls *)

Lemma call_preserves_submitted env msg s b a :
  submitted s b a = true -> submitted (fst (call env msg s)) b a = true.
Proof.
  intros H. destruct msg; sol_cases; try exact H.
  unfold_acc. rewrite lookup_insert. case_decide; [reflexivity|exact H].
Qed.

Lemma run_preserves_submitted tr s b a :
  submitted s b a = true -> submitted (run tr s) b a = true.
Proof.
  revert s. induction tr as [|[env msg] tr IH]; intros s H; cbn.
  - exact H.
  - apply IH. by apply call_preserves_submitted.
Qed.

(** The current batch id never decreases, whatever is called. *)
Theorem batch_id_never_decreases env msg s :
  currentBatchId s <= currentBatchId (fst (call env msg s)).
Proof.
  destruct msg; sol_cases; lia.
Qed.

Lemma deploy_slots_bounded env : slots_bounded (deploy env).
Proof.
  split; cbn.
  - lia.
  - discriminate.
  - intros b [v Hv]. by rewrite lookup_empty in Hv.
  - intros b a [v Hv]. by rewrite lookup_empty in Hv.
Qed.

Lemma call_slots_bounded env msg s :
  slots_bounded s -> slots_bounded (fst (call env msg s)).
Proof.
  intros Hinv.
  destruct msg; sol_cases; try exact Hinv;
    destruct Hinv as [Hid Hopen Hsum Hsub];
    try (split; cbn; assumption).
  - (* openBatch *)
    clear Hopen. split; cbn.
    + lia.
    + lia.
    + intros b Hb. rewrite lookup_insert in Hb.
      case_decide; [lia|]. apply Hsum in Hb. lia.
    + intros b a Hb. apply Hsub in Hb. lia.
  - (* closeBatch *)
    split; cbn; [assumption|discriminate|assumption..].
  - (* submitData *)
    assert (1 <= currentBatchId s)
      by (apply Hopen; by destruct (batchOpen s)).
    clear Hopen. split; cbn.
    + assumption.
    + intros _. assumption.
    + intros b Hb. rewrite lookup_insert in Hb.
      case_decide; [lia|]. by apply Hsum.
    + intros b a Hb. rewrite lookup_insert in Hb.
      case_decide as Hk; [inversion Hk; lia|]. by apply (Hsub b a).
Qed.

Lemma reachable_slots_bounded s : reachable s -> slots_bounded s.
Proof.
  induction 1.
  - apply deploy_slots_bounded.
  - by apply call_slots_bounded.
Qed.

(** In a reachable storage the slots of batch 0 and of the batches after
    the current one were never written. *)
Lemma reachable_unopened_batch s b :
  reachable s -> b < 1 \/ currentBatchId s < b ->
  dataSum s b = FHE.zero_handle /\ forall a, submitted s b a = false.
Proof.
  intros Hr Hb. destruct (reachable_slots_bounded s Hr) as [_ _ Hsum Hsub].
  unfold_acc. split.
  - destruct (encryptedDataSum s !! b) eqn:E; [|reflexivity].
    assert (1 <= b <= currentBatchId s) by (apply Hsum; eauto). lia.
  - intros a. destruct (hasSubmitted s !! (b, a)) eqn:E; [|reflexivity].
    assert (1 <= b <= currentBatchId s) by (apply (Hsub b a); eauto). lia.
Qed.

(** ** Deployment *)

(** C10. Immediately after construction the deploying account is the owner
    and already a provider, the cooldown is 60 seconds, the current batch id
    is 0, no batch is open and the contract is not paused. *)
Theorem constructor_initial_state env :
  owner (deploy env) = msg_sender env /\
  isProvider (deploy env) (msg_sender env) = true /\
  cooldownSeconds (deploy env) = 60 /\
  currentBatchId (deploy env) = 0 /\
  batchOpen (deploy env) = false /\
  paused (deploy env) = false.
Proof.
  cbn. repeat split.
  unfold_acc. by rewrite lookup_insert_eq.
Qed.

(** ** Reverts *)

(** C4. A call that fails, with whatever error, leaves the storage exactly
    as it was before the call: no mapping, counter, flag, timestamp or
    decryption context is changed. *)
Theorem failed_call_changes_nothing env msg s s' e :
  call env msg s = (s', Reverted e) -> s' = s.
Proof.
  unfold call, transact.
  destruct (dispatch env msg s []) as [u s1 log|e1 s1]; intros H.
  - discriminate H.
  - by inversion H.
Qed.

(** Where the body has written before it reverts, the write is what the
    transaction discards.  Only two bodies do: [myCallback], which marks
    the context before three of its reverts, and [submitData], whose
    counter increment can overflow after the accumulator was stored.  In
    every other function the storage at the revert is the one before the
    call. *)
Lemma revert_point_is_clean env msg s e s1 :
  match msg with
  | MyCallback _ _ _ | SubmitData _ => False
  | _ => True
  end ->
  dispatch env msg s [] = Revert e s1 -> s1 = s.
Proof.
  intros Hmsg. destruct msg; try contradiction;
    sol_cases; intros H; by inversion H.
Qed.

(** ** The pause flag *)

(** C7, as the source has it. While the contract is paused, openBatch,
    closeBatch, submitData and requestBatchResultDecryption (and pause
    itself) revert and change nothing: with [Paused] when the caller passes
    the role check, which comes first, and with [NotOwner] or [NotProvider]
    otherwise. *)
Theorem paused_blocks_gated_calls env msg s :
  paused s = true ->
  pause_gated msg = true ->
  call env msg s =
    (s, Reverted (if authorised env s msg then Err.Paused
                  else role_error msg)).
Proof.
  intros Hp Hg.
  destruct msg; try discriminate Hg; unfold_sol; cbn;
    match goal with
    | |- context [msg_sender env =? owner s] =>
        destruct (msg_sender env =? owner s)
    | |- context [isProvider s (msg_sender env)] =>
        destruct (isProvider s (msg_sender env))
    end; cbn; rewrite ?Hp; reflexivity.
Qed.

(** ** Requesting a decryption *)

Lemma cooldown_elapsed_tests last cooldown now :
  cooldown_elapsed last cooldown now ->
  (last + cooldown <=? max_uint256) = true /\
  (now <? last + cooldown) = false.
Proof.
  intros [Hmax Hcd]. split; [by apply Z.leb_le|by apply Z.ltb_ge].
Qed.

(** C8, as the source has it. For a provider calling while the contract is
    not paused and once the caller's request cooldown has elapsed,
    requestBatchResultDecryption reverts with [BatchNotClosed] whenever a
    batch is open, and with [InvalidArgument] whenever no batch is open and
    the current batch has no contribution; whichever provider calls. *)
Theorem request_needs_closed_nonempty_batch env s :
  isProvider s (msg_sender env) = true ->
  paused s = false ->
  request_cooldown_elapsed env s ->
  (batchOpen s = true ->
   call env RequestBatchResultDecryption s
   = (s, Reverted Err.BatchNotClosed)) /\
  (batchOpen s = false -> count s (currentBatchId s) = 0 ->
   call env RequestBatchResultDecryption s
   = (s, Reverted Err.InvalidArgument)).
Proof.
  intros Hprov Hp Hcd.
  destruct (cooldown_elapsed_tests _ _ _ Hcd) as [Hle Hlt].
  split.
  - intros Ho. unfold_sol.
    repeat (first [rewrite Hprov | rewrite Hp | rewrite Hle | rewrite Hlt
                  | rewrite Ho]; cbn).
    reflexivity.
  - intros Ho Hc. unfold_sol.
    repeat (first [rewrite Hprov | rewrite Hp | rewrite Hle | rewrite Hlt
                  | rewrite Ho | rewrite Hc]; cbn).
    reflexivity.
Qed.

(** ** Opening a batch *)

(** C9, as the source has it. In a reachable storage, openBatch called by
    the owner while not paused reverts with [InvalidArgument] if a batch is
    already open; otherwise, as long as the current batch id is below
    2^256-1, it increments the id by exactly one, sets the new batch's
    accumulator to the encoded zero and its count to 0, finds no
    contributor recorded for it, and sets batchOpen; at 2^256-1 the checked
    increment reverts and nothing changes. *)
Theorem openBatch_opens_fresh_batch env s :
  reachable s ->
  msg_sender env = owner s ->
  paused s = false ->
  (batchOpen s = true ->
   call env OpenBatch s = (s, Reverted Err.InvalidArgument)) /\
  (batchOpen s = false -> currentBatchId s < max_uint256 ->
   snd (call env OpenBatch s)
   = Committed [Ev.BatchOpened (currentBatchId s + 1)] /\
   currentBatchId (fst (call env OpenBatch s)) = currentBatchId s + 1 /\
   dataSum (fst (call env OpenBatch s)) (currentBatchId s + 1)
   = FHE.asEuint32 0 /\
   count (fst (call env OpenBatch s)) (currentBatchId s + 1) = 0 /\
   (forall a,
      submitted (fst (call env OpenBatch s)) (currentBatchId s + 1) a
      = false) /\
   batchOpen (fst (call env OpenBatch s)) = true) /\
  (batchOpen s = false -> currentBatchId s = max_uint256 ->
   call env OpenBatch s = (s, Reverted Err.Panic)).
Proof.
  intros Hr Hown Hp.
  assert (Hown' : (msg_sender env =? owner s) = true) by by apply Z.eqb_eq.
  split; [|split].
  - intros Ho. unfold_sol.
    repeat (first [rewrite Hown' | rewrite Hp | rewrite Ho]; cbn).
    reflexivity.
  - intros Ho Hlt.
    assert (Hle : (currentBatchId s + 1 <=? max_uint256) = true)
      by (apply Z.leb_le; lia).
    destruct (reachable_unopened_batch s (currentBatchId s + 1) Hr)
      as [_ Hsub]; [right; lia|].
    unfold_sol.
    repeat (first [rewrite Hown' | rewrite Hp | rewrite Ho | rewrite Hle];
            cbn).
    unfold_acc. rewrite !lookup_insert_eq. cbn. repeat split.
    exact Hsub.
  - intros Ho Hmax.
    assert (Hle : (currentBatchId s + 1 <=? max_uint256) = false)
      by (apply Z.leb_gt; lia).
    unfold_sol.
    repeat (first [rewrite Hown' | rewrite Hp | rewrite Ho | rewrite Hle];
            cbn).
    reflexivity.
Qed.

(** ** Submitting a contribution *)

Lemma submitData_records_sender env v s s' log :
  call env (SubmitData v) s = (s', Committed log) ->
  submitted s' (currentBatchId s) (msg_sender env) = true.
Proof.
  sol_cases; intros H; inversion H; subst.
  unfold_acc. by rewrite lookup_insert_eq.
Qed.

Lemma submitData_again_reverts env v s :
  submitted s (currentBatchId s) (msg_sender env) = true ->
  exists e,
    call env (SubmitData v) s = (s, Reverted e) /\
    (isProvider s (msg_sender env) = false -> e = Err.NotProvider) /\
    (isProvider s (msg_sender env) = true ->
     paused s = true -> e = Err.Paused) /\
    (isProvider s (msg_sender env) = true ->
     paused s = false ->
     max_uint256 < lastSubmission s (msg_sender env) + cooldownSeconds s ->
     e = Err.Panic) /\
    (isProvider s (msg_sender env) = true ->
     paused s = false ->
     lastSubmission s (msg_sender env) + cooldownSeconds s <= max_uint256 ->
     block_timestamp env
     < lastSubmission s (msg_sender env) + cooldownSeconds s ->
     e = Err.CooldownActive) /\
    (isProvider s (msg_sender env) = true ->
     paused s = false ->
     submission_cooldown_elapsed env s ->
     batchOpen s = false ->
     e = Err.BatchNotOpen) /\
    (isProvider s (msg_sender env) = true ->
     paused s = false ->
     submission_cooldown_elapsed env s ->
     batchOpen s = true ->
     e = Err.InvalidArgument).
Proof.
  intros Hs. unfold submission_cooldown_elapsed, cooldown_elapsed.
  destruct (isProvider s (msg_sender env)) eqn:Hprov;
    [|eexists; split;
      [unfold_sol; cbn; rewrite Hprov; reflexivity
      |repeat split; intros; first [reflexivity | discriminate]]].
  destruct (paused s) eqn:Hp;
    [eexists; split;
      [unfold_sol; cbn; rewrite Hprov; cbn; rewrite Hp; reflexivity
      |repeat split; intros; first [reflexivity | discriminate]]|].
  destruct (Z.leb_spec (lastSubmission s (msg_sender env) + cooldownSeconds s)
              max_uint256) as [Hfit|Hover].
  2: { eexists. split.
       - apply Z.leb_gt in Hover. unfold_sol.
         repeat (first [rewrite Hprov | rewrite Hp | rewrite Hover]; cbn).
         reflexivity.
       - repeat split; intros; first [reflexivity | discriminate | lia]. }
  destruct (Z.ltb_spec (block_timestamp env)
              (lastSubmission s (msg_sender env) + cooldownSeconds s))
    as [Hearly|Hdue].
  { eexists. split.
    - apply Z.leb_le in Hfit. apply Z.ltb_lt in Hearly. unfold_sol.
      repeat (first [rewrite Hprov | rewrite Hp | rewrite Hfit
                    | rewrite Hearly]; cbn).
      reflexivity.
    - repeat split; intros; first [reflexivity | discriminate | lia]. }
  destruct (batchOpen s) eqn:Ho.
  - eexists. split.
    + apply Z.leb_le in Hfit. apply Z.ltb_ge in Hdue. unfold_sol.
      repeat (first [rewrite Hprov | rewrite Hp | rewrite Hfit | rewrite Hdue
                    | rewrite Ho | rewrite Hs]; cbn).
      reflexivity.
    + repeat split; intros; first [reflexivity | discriminate | lia].
  - eexists. split.
    + apply Z.leb_le in Hfit. apply Z.ltb_ge in Hdue. unfold_sol.
      repeat (first [rewrite Hprov | rewrite Hp | rewrite Hfit | rewrite Hdue
                    | rewrite Ho]; cbn).
      reflexivity.
    + repeat split; intros; first [reflexivity | discriminate | lia].
Qed.

(** C6, as the source has it. After a successful submitData by a provider
    in a batch, any further submitData by that provider while that batch is
    still the current one reverts and leaves the storage, and so the
    batch's count and contributors, unchanged.  The error is that of the
    first check that fails, in the order of the source: [NotProvider] if
    the caller is no longer a provider; else [Paused] if the contract is
    paused; else a panic if the cooldown deadline overflows; else
    [CooldownActive] if the deadline is after the block's time; else
    [BatchNotOpen] if the batch is closed; else the already-submitted
    revert, [InvalidArgument]. *)
Theorem provider_submits_once_per_batch env1 v1 s0 s1 log tr env2 v2 :
  call env1 (SubmitData v1) s0 = (s1, Committed log) ->
  currentBatchId (run tr s1) = currentBatchId s0 ->
  msg_sender env2 = msg_sender env1 ->
  exists e,
    call env2 (SubmitData v2) (run tr s1) = (run tr s1, Reverted e) /\
    (isProvider (run tr s1) (msg_sender env2) = false ->
     e = Err.NotProvider) /\
    (isProvider (run tr s1) (msg_sender env2) = true ->
     paused (run tr s1) = true -> e = Err.Paused) /\
    (isProvider (run tr s1) (msg_sender env2) = true ->
     paused (run tr s1) = false ->
     max_uint256
     < lastSubmission (run tr s1) (msg_sender env2)
       + cooldownSeconds (run tr s1) ->
     e = Err.Panic) /\
    (isProvider (run tr s1) (msg_sender env2) = true ->
     paused (run tr s1) = false ->
     lastSubmission (run tr s1) (msg_sender env2)
     + cooldownSeconds (run tr s1) <= max_uint256 ->
     block_timestamp env2
     < lastSubmission (run tr s1) (msg_sender env2)
       + cooldownSeconds (run tr s1) ->
     e = Err.CooldownActive) /\
    (isProvider (run tr s1) (msg_sender env2) = true ->
     paused (run tr s1) = false ->
     submission_cooldown_elapsed env2 (run tr s1) ->
     batchOpen (run tr s1) = false ->
     e = Err.BatchNotOpen) /\
    (isProvider (run tr s1) (msg_sender env2) = true ->
     paused (run tr s1) = false ->
     submission_cooldown_elapsed env2 (run tr s1) ->
     batchOpen (run tr s1) = true ->
     e = Err.InvalidArgument).
Proof.
  intros Hsub Hid Hsender.
  apply submitData_again_reverts.
  rewrite Hid, Hsender. apply run_preserves_submitted.
  by eapply submitData_records_sender.
Qed.

(** ** Resolving a decryption *)

Lemma call_preserves_processed env msg s r :
  processed (context s r) = true ->
  issues_fresh_id env msg s ->
  processed (context (fst (call env msg s)) r) = true.
Proof.
  intros H Hfresh. destruct msg; sol_cases; try exact H.
  - (* a request is stored under the identifier the oracle issued *)
    specialize (Hfresh eq_refl). unfold_acc.
    rewrite lookup_insert. case_decide; [|exact H]. subst.
    by rewrite Hfresh in H.
  - (* a resolved callback marks its own context *)
    unfold_acc. rewrite lookup_insert. case_decide; [reflexivity|exact H].
Qed.

Lemma run_preserves_processed tr s r :
  fresh_ids tr s ->
  processed (context s r) = true ->
  processed (context (run tr s) r) = true.
Proof.
  revert s. induction tr as [|[env msg] tr IH]; intros s Hf H; cbn.
  - exact H.
  - destruct Hf as [Hf1 Hf2]. apply IH; [exact Hf2|].
    by apply call_preserves_processed.
Qed.

Lemma myCallback_success_marks env r c p s s' log :
  call env (MyCallback r c p) s = (s', Committed log) ->
  processed (context s' r) = true.
Proof.
  sol_cases; intros H; inversion H; subst.
  unfold_acc. by rewrite lookup_insert_eq.
Qed.

Lemma myCallback_replay env r c p s :
  processed (context s r) = true ->
  call env (MyCallback r c p) s = (s, Reverted Err.ReplayDetected).
Proof.
  intros H. unfold_sol. cbn. rewrite H. reflexivity.
Qed.

(** C2. Along any sequence of calls in which the oracle issues identifiers
    that have no stored context yet, a context that is processed stays
    processed: no call sets the flag back to false, so it goes from false
    to true at most once.  In particular, once myCallback has succeeded for
    a request id, every later myCallback with that id reverts with
    [ReplayDetected]. *)
Theorem processed_is_permanent r tr s :
  fresh_ids tr s ->
  (processed (context s r) = true ->
   processed (context (run tr s) r) = true) /\
  (forall env c p s0 log,
     call env (MyCallback r c p) s0 = (s, Committed log) ->
     forall env' c' p',
       call env' (MyCallback r c' p') (run tr s)
       = (run tr s, Reverted Err.ReplayDetected)).
Proof.
  intros Hfresh. split.
  - by apply run_preserves_processed.
  - intros env c p s0 log Hok env' c' p'.
    apply myCallback_replay, run_preserves_processed; [exact Hfresh|].
    by eapply myCallback_success_marks.
Qed.

Lemma myCallback_uninitialized env r c p s :
  processed (context s r) = false ->
  accumulator_initialized s r = false ->
  call env (MyCallback r c p) s = (s, Reverted Err.DecryptionFailed).
Proof.
  unfold accumulator_initialized. intros Hpending Hinit.
  unfold_sol. cbn. rewrite Hpending. cbn. rewrite Hinit. reflexivity.
Qed.



(** C1, as the source has it. The source has no unknown-request error: a
    request id with no stored context reads as the zero context, which
    names batch 0, and batch 0 is never opened.  In every reachable
    storage, with an FHE library that reports the zero handle of unwritten
    storage as uninitialised, myCallback with such an id reverts with
    [DecryptionFailed], whatever the cleartexts and the proof, and changes
    nothing. *)
Theorem unknown_request_reverts env r c p s :
  reachable s ->
  fst (FHE.isInitialized FHE.zero_handle) = false ->
  decryptionContexts s !! r = None ->
  call env (MyCallback r c p) s = (s, Reverted Err.DecryptionFailed).
Proof.
  intros Hr Hzero Hnone.
  assert (Hctx : context s r = zero_context)
    by (unfold context, rd; by rewrite Hnone).
  destruct (reachable_unopened_batch s 0 Hr) as [Hsum _]; [left; lia|].
  apply myCallback_uninitialized.
  - by rewrite Hctx.
  - unfold accumulator_initialized. rewrite Hctx. cbn.
    by rewrite Hsum, Hzero.
Qed.

(** ** Reaching any batch id *)

Lemma reachable_run tr s : reachable s -> reachable (run tr s).
Proof.
  revert s. induction tr as [|[env msg] tr IH]; intros s H; cbn.
  - exact H.
  - apply IH. by constructor.
Qed.

Lemma openBatch_ok env s :
  msg_sender env = owner s -> paused s = false -> batchOpen s = false ->
  currentBatchId s < max_uint256 ->
  call env OpenBatch s =
    (set_dataCount (<[currentBatchId s + 1 := 0]> (dataCount s))
       (set_encryptedDataSum
          (<[currentBatchId s + 1 := FHE.asEuint32 0]> (encryptedDataSum s))
          (set_batchOpen true (set_currentBatchId (currentBatchId s + 1) s))),
     Committed [Ev.BatchOpened (currentBatchId s + 1)]).
Proof.
  intros Hown Hp Ho Hlt.
  assert (Hown' : (msg_sender env =? owner s) = true) by by apply Z.eqb_eq.
  assert (Hle : (currentBatchId s + 1 <=? max_uint256) = true)
    by (apply Z.leb_le; lia).
  unfold_sol.
  repeat (first [rewrite Hown' | rewrite Hp | rewrite Ho | rewrite Hle]; cbn).
  reflexivity.
Qed.

Lemma closeBatch_ok env s :
  msg_sender env = owner s -> paused s = false -> batchOpen s = true ->
  call env CloseBatch s =
    (set_batchOpen false s, Committed [Ev.BatchClosed (currentBatchId s)]).
Proof.
  intros Hown Hp Ho.
  assert (Hown' : (msg_sender env =? owner s) = true) by by apply Z.eqb_eq.
  unfold_sol.
  repeat (first [rewrite Hown' | rewrite Hp | rewrite Ho]; cbn).
  reflexivity.
Qed.

(** By opening and closing batches the owner brings the batch id to any
    value a [uint256] can hold. *)
Lemma batch_id_reachable env n :
  0 <= n <= max_uint256 ->
  exists s,
    reachable s /\ owner s = msg_sender env /\ paused s = false /\
    batchOpen s = false /\ currentBatchId s = n.
Proof.
  intros [Hn Hmax]. revert Hmax. pattern n. apply natlike_ind; [| |exact Hn].
  - intros _. exists (deploy env). repeat split. constructor.
  - intros x Hx IH Hmax.
    destruct IH as (s & Hr & Hown & Hp & Ho & Hid); [lia|].
    exists (run [(env, OpenBatch); (env, CloseBatch)] s).
    split; [by apply reachable_run|].
    cbn. rewrite openBatch_ok; [|done|done|done|lia]. cbn.
    rewrite closeBatch_ok; [|done..]. cbn.
    repeat split; [done..|lia].
Qed.

(** ** Commitments stay current *)

Lemma deploy_commitments_current self env :
  commitments_current self (deploy env).
Proof.
  split; cbn; intros r ctx H; by rewrite lookup_empty in H.
Qed.

Lemma call_commitments_current self env msg s :
  this env = self ->
  slots_bounded s ->
  commitments_current self s ->
  commitments_current self (fst (call env msg s)).
Proof.
  intros Hself Hsb Hinv.
  destruct msg; sol_cases; try exact Hinv.
  all: destruct Hinv as [Hid Hclosed Hhash].
  all: try (split; cbn; assumption).
  - (* openBatch: the new slot is above every stored batch id *)
    clear Hclosed. split; cbn.
    + intros r ctx H. apply Hid in H. lia.
    + intros r ctx H Heq. apply Hid in H. lia.
    + intros r ctx H. rewrite (Hhash r ctx H). unfold dataSum, rd. cbn.
      rewrite lookup_insert_ne; [reflexivity|]. apply Hid in H. lia.
  - (* closeBatch *)
    split; cbn; [assumption | reflexivity | assumption].
  - (* submitData: no context names the open batch *)
    assert (Ho : batchOpen s = true) by by destruct (batchOpen s).
    split; cbn.
    + assumption.
    + assumption.
    + intros r ctx H. rewrite (Hhash r ctx H). unfold dataSum, rd. cbn.
      rewrite lookup_insert_ne; [reflexivity|].
      intros Heq. symmetry in Heq.
      specialize (Hclosed r ctx H Heq). congruence.
  - (* requestBatchResultDecryption: the new commitment is current *)
    split; cbn.
    + intros r ctx H. rewrite lookup_insert in H.
      case_decide; [|by eapply Hid]. inversion H. cbn. lia.
    + intros r ctx H. rewrite lookup_insert in H.
      case_decide; [|by eapply Hclosed]. done.
    + intros r ctx H. rewrite lookup_insert in H.
      case_decide; [|by eapply Hhash]. inversion H. cbn.
      unfold _hashCiphertexts. by rewrite Hself.
  - (* myCallback: the marked context passed the commitment test *)
    match goal with
    | H : negb (_ =? _) = false |- _ =>
        apply negb_false_iff, Z.eqb_eq in H; rename H into Hmatch
    end.
    unfold _hashCiphertexts in Hmatch. rewrite Hself in Hmatch.
    destruct Hsb as [Hcur Hopen _ _].
    split; cbn.
    + intros r ctx H. rewrite lookup_insert in H.
      case_decide; [|by eapply Hid]. inversion H. cbn.
      unfold context, rd.
      destruct (decryptionContexts s !! requestId) as [ctx0|] eqn:E; cbn.
      * by eapply Hid.
      * exact Hcur.
    + intros r ctx H. rewrite lookup_insert in H.
      case_decide; [|by eapply Hclosed]. inversion H. cbn.
      unfold context, rd.
      destruct (decryptionContexts s !! requestId) as [ctx0|] eqn:E; cbn.
      * by eapply Hclosed.
      * intros Hzero. destruct (batchOpen s); [|reflexivity].
        specialize (Hopen eq_refl). lia.
    + intros r ctx H. rewrite lookup_insert in H.
      case_decide; [|by eapply Hhash]. inversion H. cbn.
      symmetry. exact Hmatch.
Qed.

Lemma reachable_at_reachable self s : reachable_at self s -> reachable s.
Proof. induction 1; by constructor. Qed.

Lemma reachable_at_commitments_current self s :
  reachable_at self s -> commitments_current self s.
Proof.
  induction 1 as [env|env msg s Hself Hr IH].
  - apply deploy_commitments_current.
  - apply call_commitments_current; [exact Hself| |exact IH].
    by eapply reachable_slots_bounded, reachable_at_reachable.
Qed.

Lemma reachable_at_run self tr s :
  Forall (fun c => this (fst c) = self) tr ->
  reachable_at self s -> reachable_at self (run tr s).
Proof.
  intros Htr. revert s.
  induction Htr as [|[env msg] tr Hself _ IH]; intros s H; cbn.
  - exact H.
  - apply IH. by constructor.
Qed.






(** In a storage reachable with the contract's address fixed, the
    commitment stored with a request is the one myCallback recomputes: the
    accumulator of a batch is not written any more once a request names
    it, so the [StateMismatch] test cannot fail for a stored request. *)
Theorem stored_commitment_is_current self env r s :
  reachable_at self s ->
  this env = self ->
  is_Some (decryptionContexts s !! r) ->
  recomputed_commitment env s r = stateHash (context s r).
Proof.
  intros Hr Hself [ctx Hctx].
  destruct (reachable_at_commitments_current self s Hr) as [_ _ Hhash].
  unfold recomputed_commitment, _hashCiphertexts, context, rd.
  rewrite Hctx, Hself. cbn. symmetry. by eapply Hhash.
Qed.

(** ** What the successful calls do *)

(** closeBatch by the owner, not paused, with a batch open: the batch is
    closed and the batch id stays. *)
Theorem closeBatch_keeps_batch_id env s :
  msg_sender env = owner s -> paused s = false -> batchOpen s = true ->
  snd (call env CloseBatch s) = Committed [Ev.BatchClosed (currentBatchId s)] /\
  batchOpen (fst (call env CloseBatch s)) = false /\
  currentBatchId (fst (call env CloseBatch s)) = currentBatchId s.
Proof.
  intros Hown Hp Ho. by rewrite closeBatch_ok.
Qed.

(** submitData by a provider who has not contributed to the open batch,
    not paused, cooldown elapsed: the value is added to the batch's
    accumulator, the count grows by one, the provider is recorded and its
    submission time is the block's. *)
Theorem submitData_accumulates env v s :
  isProvider s (msg_sender env) = true ->
  paused s = false ->
  submission_cooldown_elapsed env s ->
  batchOpen s = true ->
  submitted s (currentBatchId s) (msg_sender env) = false ->
  count s (currentBatchId s) < max_uint256 ->
  snd (call env (SubmitData v) s)
  = Committed [Ev.DataSubmitted (msg_sender env) (currentBatchId s) v] /\
  dataSum (fst (call env (SubmitData v) s)) (currentBatchId s)
  = FHE.add (dataSum s (currentBatchId s))
      (_initIfNeeded (FHE.asEuint32 v)) /\
  count (fst (call env (SubmitData v) s)) (currentBatchId s)
  = count s (currentBatchId s) + 1 /\
  submitted (fst (call env (SubmitData v) s)) (currentBatchId s)
    (msg_sender env) = true /\
  lastSubmission (fst (call env (SubmitData v) s)) (msg_sender env)
  = block_timestamp env /\
  currentBatchId (fst (call env (SubmitData v) s)) = currentBatchId s /\
  batchOpen (fst (call env (SubmitData v) s)) = true.
Proof.
  intros Hprov Hp Hcd Ho Hsub Hcount.
  destruct (cooldown_elapsed_tests _ _ _ Hcd) as [Hle Hlt].
  assert (Hinc : (count s (currentBatchId s) + 1 <=? max_uint256) = true)
    by (apply Z.leb_le; lia).
  unfold_sol. unfold_acc.
  repeat (first [rewrite Hprov | rewrite Hp | rewrite Hle | rewrite Hlt
                | rewrite Ho | rewrite Hsub | rewrite Hinc]; cbn).
  rewrite !lookup_insert_eq. cbn. repeat split.
Qed.

(** requestBatchResultDecryption by a provider, not paused, cooldown
    elapsed, on a closed batch with data: the context stored under the
    issued identifier names the current batch, holds the commitment of its
    accumulator and is unprocessed. *)
Theorem request_records_commitment env s :
  isProvider s (msg_sender env) = true ->
  paused s = false ->
  request_cooldown_elapsed env s ->
  batchOpen s = false ->
  count s (currentBatchId s) <> 0 ->
  snd (call env RequestBatchResultDecryption s)
  = Committed [Ev.DecryptionRequested (issued_requestId env)
                 (currentBatchId s)] /\
  context (fst (call env RequestBatchResultDecryption s))
    (issued_requestId env)
  = {| batchId := currentBatchId s;
       stateHash :=
         _hashCiphertexts env
           [FHE.toBytes32 (dataSum s (currentBatchId s))];
       processed := false |} /\
  lastDecryptionRequest (fst (call env RequestBatchResultDecryption s))
    (msg_sender env) = block_timestamp env.
Proof.
  intros Hprov Hp Hcd Ho Hcount.
  destruct (cooldown_elapsed_tests _ _ _ Hcd) as [Hle Hlt].
  apply Z.eqb_neq in Hcount.
  unfold_sol. unfold_acc.
  repeat (first [rewrite Hprov | rewrite Hp | rewrite Hle | rewrite Hlt
                | rewrite Ho | rewrite Hcount]; cbn).
  rewrite !lookup_insert_eq. cbn. repeat split.
Qed.

(** myCallback for an unprocessed request whose batch accumulator is
    initialised and matches the stored commitment, with a proof the
    library accepts and at least 32 bytes of cleartext: the context is
    marked processed and the decoded result is emitted. *)
Theorem myCallback_accepts_valid_result env r c p s result :
  processed (context s r) = false ->
  accumulator_initialized s r = true ->
  recomputed_commitment env s r = stateHash (context s r) ->
  FHE.checkSignatures r c p = true ->
  abi_decode_uint256 c = Some result ->
  snd (call env (MyCallback r c p) s)
  = Committed [Ev.DecryptionCompleted r (batchId (context s r)) result] /\
  context (fst (call env (MyCallback r c p) s)) r
  = mark_processed (context s r).
Proof.
  unfold accumulator_initialized, recomputed_commitment.
  intros Hpending Hinit Hmatch Hsig Hdec. apply Z.eqb_eq in Hmatch.
  unfold_sol. cbn. rewrite Hpending. cbn. rewrite Hinit. cbn.
  rewrite Hmatch. cbn. rewrite Hsig, Hdec. cbn.
  split; [reflexivity|].
  unfold context at 1. unfold rd. cbn. by rewrite lookup_insert_eq.
Qed.

(** ** Roles *)

Lemma call_keeps_owner env msg s : owner (fst (call env msg s)) = owner s.
Proof. destruct msg; sol_cases; reflexivity. Qed.

(** The owner set by the constructor is never replaced: no sequence of
    calls, by whomever, changes [owner]. *)
Theorem owner_never_changes tr s : owner (run tr s) = owner s.
Proof.
  revert s. induction tr as [|[env msg] tr IH]; intros s; cbn.
  - reflexivity.
  - rewrite IH. apply call_keeps_owner.
Qed.

(** A call by someone without the role the function asks for reverts with
    the role error and changes nothing, whatever else holds (paused or
    not, batch open or not, argument valid or not): the role modifier is
    the first check of every function that has one. *)
Theorem role_check_comes_first env msg s :
  authorised env s msg = false ->
  call env msg s = (s, Reverted (role_error msg)).
Proof.
  intros H. destruct msg; cbn in H; try discriminate H;
    unfold_sol; cbn; rewrite H; reflexivity.
Qed.

(** Whoever is not the owner cannot change the owner, the provider set,
    the pause flag, the cooldown, the batch id or the open flag, by any
    call. *)
Theorem only_owner_administers env msg s :
  msg_sender env <> owner s ->
  admin_fields (fst (call env msg s)) = admin_fields s.
Proof.
  intros Hne. apply Z.eqb_neq in Hne.
  destruct msg; unfold_sol; cbn; rewrite ?Hne; cbn; try reflexivity;
    sol_cases; reflexivity.
Qed.

(** A caller who is neither the owner nor a provider can change nothing
    but one decryption context, through myCallback, and that only by
    marking it processed. *)
Theorem stranger_can_only_resolve env msg s :
  msg_sender env <> owner s ->
  isProvider s (msg_sender env) = false ->
  fst (call env msg s) = s \/
  exists r c p,
    msg = MyCallback r c p /\
    fst (call env msg s)
    = set_decryptionContexts
        (<[r := mark_processed (context s r)]> (decryptionContexts s)) s.
Proof.
  intros Hne Hnp. apply Z.eqb_neq in Hne.
  destruct msg; try (left; unfold_sol; cbn; rewrite ?Hne, ?Hnp; reflexivity).
  sol_cases;
    first [left; reflexivity | right; do 3 eexists; split; reflexivity].
Qed.

(** addProvider and removeProvider by the owner always commit, paused or
    not, and set the membership of the named address only. *)
Theorem owner_sets_membership env p s :
  msg_sender env = owner s ->
  (snd (call env (AddProvider p) s) = Committed [Ev.ProviderAdded p] /\
   isProvider (fst (call env (AddProvider p) s)) p = true /\
   forall q, q <> p ->
     isProvider (fst (call env (AddProvider p) s)) q = isProvider s q) /\
  (snd (call env (RemoveProvider p) s) = Committed [Ev.ProviderRemoved p] /\
   isProvider (fst (call env (RemoveProvider p) s)) p = false /\
   forall q, q <> p ->
     isProvider (fst (call env (RemoveProvider p) s)) q = isProvider s q).
Proof.
  intros Hown. apply Z.eqb_eq in Hown.
  split; unfold_sol; cbn; rewrite Hown; cbn; unfold isProvider, rd; cbn;
    rewrite lookup_insert_eq; (repeat split);
    intros q Hq; by rewrite lookup_insert_ne.
Qed.

(** A removal takes effect at once: after the owner's removeProvider, the
    removed address, be it the owner's own, can neither submit nor request
    a decryption. *)
Theorem removed_provider_is_locked_out env env' p v s :
  msg_sender env = owner s ->
  msg_sender env' = p ->
  call env' (SubmitData v) (fst (call env (RemoveProvider p) s))
  = (fst (call env (RemoveProvider p) s), Reverted Err.NotProvider) /\
  call env' RequestBatchResultDecryption (fst (call env (RemoveProvider p) s))
  = (fst (call env (RemoveProvider p) s), Reverted Err.NotProvider).
Proof.
  intros Hown Hp.
  assert (Hgone : isProvider (fst (call env (RemoveProvider p) s))
                    (msg_sender env') = false).
  { apply Z.eqb_eq in Hown. rewrite Hp. unfold_sol. cbn. rewrite Hown. cbn.
    unfold isProvider, rd. cbn. by rewrite lookup_insert_eq. }
  split; unfold_sol; cbn; rewrite Hgone; reflexivity.
Qed.

(** ** Pause and cooldown settings *)

(** pause by the owner of an unpaused contract sets the flag, and the
    owner's unpause restores the storage exactly; unpause commits for the
    owner whether the contract is paused or not. *)
Theorem pause_unpause_round_trip env env' s :
  msg_sender env = owner s ->
  msg_sender env' = owner s ->
  (paused s = false ->
   snd (call env Pause s) = Committed [Ev.Paused (msg_sender env)] /\
   paused (fst (call env Pause s)) = true /\
   fst (call env' Unpause (fst (call env Pause s))) = s) /\
  snd (call env' Unpause s) = Committed [Ev.Unpaused (msg_sender env')] /\
  paused (fst (call env' Unpause s)) = false.
Proof.
  intros Hown Hown'. apply Z.eqb_eq in Hown, Hown'.
  split; [intros Hp|]; unfold_sol; cbn; rewrite ?Hown; cbn;
    rewrite ?Hp; cbn; rewrite ?Hown'; cbn; repeat split.
  destruct s; cbn in *. by rewrite Hp.
Qed.

Lemma call_cooldown_nonzero env msg s :
  cooldownSeconds s <> 0 -> cooldownSeconds (fst (call env msg s)) <> 0.
Proof.
  intros H. destruct msg; sol_cases; try exact H.
  by apply Z.eqb_neq.
Qed.

(** The cooldown is never 0 in a reachable storage: the constructor sets
    60 and the setter refuses 0. *)
Theorem cooldown_never_zero s : reachable s -> cooldownSeconds s <> 0.
Proof.
  induction 1.
  - cbn. discriminate.
  - by apply call_cooldown_nonzero.
Qed.

(** ** Cooldowns *)

(** While the caller's deadline [last + cooldown] lies after the block's
    time, a provider's submitData and requestBatchResultDecryption revert
    with [CooldownActive], each against its own timestamp, whatever the
    state of the batch; a provider that never acted has [last = 0], so it
    is refused while the block's time is below the cooldown. *)
Theorem active_cooldown_blocks env v s :
  isProvider s (msg_sender env) = true ->
  paused s = false ->
  (lastSubmission s (msg_sender env) + cooldownSeconds s <= max_uint256 ->
   block_timestamp env
   < lastSubmission s (msg_sender env) + cooldownSeconds s ->
   call env (SubmitData v) s = (s, Reverted Err.CooldownActive)) /\
  (lastDecryptionRequest s (msg_sender env) + cooldownSeconds s
   <= max_uint256 ->
   block_timestamp env
   < lastDecryptionRequest s (msg_sender env) + cooldownSeconds s ->
   call env RequestBatchResultDecryption s
   = (s, Reverted Err.CooldownActive)).
Proof.
  intros Hprov Hp.
  split; intros Hle Hlt; apply Z.leb_le in Hle; apply Z.ltb_lt in Hlt;
    unfold_sol;
    repeat (first [rewrite Hprov | rewrite Hp | rewrite Hle | rewrite Hlt];
            cbn);
    reflexivity.
Qed.

(** When [last + cooldown] does not fit in a [uint256] the deadline cannot
    be computed: the provider's submitData and
    requestBatchResultDecryption revert with a panic at any block time. *)
Theorem cooldown_overflow_panics env v s :
  isProvider s (msg_sender env) = true ->
  paused s = false ->
  (max_uint256 < lastSubmission s (msg_sender env) + cooldownSeconds s ->
   call env (SubmitData v) s = (s, Reverted Err.Panic)) /\
  (max_uint256
   < lastDecryptionRequest s (msg_sender env) + cooldownSeconds s ->
   call env RequestBatchResultDecryption s = (s, Reverted Err.Panic)).
Proof.
  intros Hprov Hp.
  split; intros Hgt; apply Z.leb_gt in Hgt; unfold_sol;
    repeat (first [rewrite Hprov | rewrite Hp | rewrite Hgt]; cbn);
    reflexivity.
Qed.

(** The two timestamps of an account are tracked apart: a call changes
    [lastSubmissionTime] of an account only when it is that account's own
    committed submitData, and [lastDecryptionRequestTime] only when it is
    its own committed request; the new value is the block's time. *)
Theorem timestamps_change_only_by_own_action env msg s a :
  (lastSubmission (fst (call env msg s)) a = lastSubmission s a \/
   (exists v, msg = SubmitData v) /\ msg_sender env = a /\
   lastSubmission (fst (call env msg s)) a = block_timestamp env) /\
  (lastDecryptionRequest (fst (call env msg s)) a
   = lastDecryptionRequest s a \/
   msg = RequestBatchResultDecryption /\ msg_sender env = a /\
   lastDecryptionRequest (fst (call env msg s)) a = block_timestamp env).
Proof.
  destruct msg; sol_cases; try (split; left; reflexivity).
  - split; [|left; reflexivity].
    unfold lastSubmission, rd. cbn. rewrite lookup_insert.
    case_decide; [right; eauto|left; reflexivity].
  - split; [left; reflexivity|].
    unfold lastDecryptionRequest, rd. cbn. rewrite lookup_insert.
    case_decide; [right; eauto|left; reflexivity].
Qed.

(** ** Batches *)

(** The batch id moves only by a committed openBatch, and then by exactly
    one, from a closed to an open batch. *)
Theorem batch_id_moves_only_by_openBatch env msg s :
  currentBatchId (fst (call env msg s)) = currentBatchId s \/
  msg = OpenBatch /\
  currentBatchId (fst (call env msg s)) = currentBatchId s + 1 /\
  batchOpen s = false /\
  batchOpen (fst (call env msg s)) = true.
Proof.
  destruct msg; sol_cases; try (left; reflexivity).
  right. repeat split.
Qed.

Lemma call_keeps_closed_batch env msg s b :
  b <= currentBatchId s ->
  b < currentBatchId s \/ batchOpen s = false ->
  (dataSum (fst (call env msg s)) b = dataSum s b /\
   count (fst (call env msg s)) b = count s b /\
   forall a, submitted (fst (call env msg s)) b a = submitted s b a) /\
  b <= currentBatchId (fst (call env msg s)) /\
  (b < currentBatchId (fst (call env msg s)) \/
   batchOpen (fst (call env msg s)) = false).
Proof.
  intros Hle Hclosed.
  assert (Hopen : batchOpen s = true -> b < currentBatchId s)
    by (intros Ho; destruct Hclosed as [|Hc]; [assumption|congruence]).
  assert (Hlast : b < currentBatchId s \/ batchOpen s = false)
    by exact Hclosed.
  clear Hclosed.
  destruct msg; sol_cases;
    try (repeat split; first [assumption | reflexivity]).
  all: try (repeat split; try assumption;
            first [left; apply Hopen; reflexivity | right; assumption]).
  - (* openBatch writes the slots of the next id *)
    clear Hopen Hlast. unfold dataSum, count, submitted, rd. cbn.
    rewrite !lookup_insert_ne by lia.
    repeat split; [lia | left; lia].
  - (* closeBatch *)
    repeat split; [assumption | by right].
  - (* submitData writes the slots of the open batch *)
    assert (Hlt : b < currentBatchId s)
      by (apply Hopen; by destruct (batchOpen s)).
    clear Hopen Hlast. unfold dataSum, count, submitted, rd. cbn.
    rewrite !lookup_insert_ne by lia.
    repeat split; [|assumption|by left].
    intros a. rewrite lookup_insert_ne; [reflexivity|].
    intros Heq. inversion Heq. lia.
Qed.

(** Once a batch is closed it is frozen: whatever is called afterwards,
    its accumulator, its count and its contributors stay as they are. *)
Theorem closed_batch_is_frozen tr s b :
  b <= currentBatchId s ->
  b < currentBatchId s \/ batchOpen s = false ->
  dataSum (run tr s) b = dataSum s b /\
  count (run tr s) b = count s b /\
  forall a, submitted (run tr s) b a = submitted s b a.
Proof.
  revert s. induction tr as [|[env msg] tr IH]; intros s Hle Hclosed; cbn.
  - repeat split.
  - destruct (call_keeps_closed_batch env msg s b Hle Hclosed)
      as ((Hsum & Hcount & Hsub) & Hle' & Hclosed').
    destruct (IH _ Hle' Hclosed') as (IHsum & IHcount & IHsub).
    rewrite IHsum, IHcount, Hsum, Hcount. repeat split.
    intros a. by rewrite IHsub, Hsub.
Qed.

(** ** The count and the contributors *)

Lemma contributors_other_batch (m : gmap (Z * Z) bool) b b' a :
  b <> b' ->
  base.filter (fun kv : Z * Z * bool => kv.1.1 = b /\ kv.2 = true)
    (<[(b', a) := true]> m)
  = base.filter (fun kv : Z * Z * bool => kv.1.1 = b /\ kv.2 = true) m.
Proof.
  intros Hne. apply map_filter_insert_not. intros y [Hb _]. cbn in Hb.
  congruence.
Qed.

Lemma contributors_new_entry (m : gmap (Z * Z) bool) b a :
  default false (m !! (b, a)) = false ->
  size (base.filter (fun kv : Z * Z * bool => kv.1.1 = b /\ kv.2 = true)
          (<[(b, a) := true]> m))
  = S (size (base.filter
               (fun kv : Z * Z * bool => kv.1.1 = b /\ kv.2 = true) m)).
Proof.
  intros Hnew. rewrite map_filter_insert_True by done.
  apply map_size_insert_None, map_lookup_filter_None.
  destruct (m !! (b, a)) as [x|] eqn:E; [right|by left].
  intros y Hy [_ Htrue]. cbn in *. congruence.
Qed.

Lemma deploy_count_contributors env b :
  count (deploy env) b = Z.of_nat (size (contributors (deploy env) b)).
Proof.
  unfold contributors, count, rd. cbn.
  by rewrite lookup_empty, map_filter_empty, map_size_empty.
Qed.

Lemma call_count_contributors env msg s :
  slots_bounded s ->
  (forall b, count s b = Z.of_nat (size (contributors s b))) ->
  forall b, count (fst (call env msg s)) b
            = Z.of_nat (size (contributors (fst (call env msg s)) b)).
Proof.
  intros Hsb Hinv b.
  destruct msg; sol_cases; try apply Hinv.
  - (* openBatch: no contributor is recorded for the next id *)
    unfold contributors, count, rd. cbn.
    rewrite lookup_insert. case_decide as Hb; [subst b|apply Hinv].
    cbn.
    replace (base.filter
               (fun kv : Z * Z * bool =>
                  kv.1.1 = currentBatchId s + 1 /\ kv.2 = true)
               (hasSubmitted s))
      with (∅ : gmap (Z * Z) bool); [by rewrite map_size_empty|].
    symmetry. apply map_empty.
    intros [b' a]. apply map_lookup_filter_None.
    destruct (hasSubmitted s !! (b', a)) as [x|] eqn:E; [right|by left].
    intros y _ [Hb' _]. cbn in Hb'.
    assert (1 <= b' <= currentBatchId s) by (eapply sb_sub; eauto).
    lia.
  - (* submitData: one more contributor of the open batch *)
    unfold contributors, count, rd in *. cbn.
    rewrite lookup_insert. case_decide as Hb.
    + subst b. cbn. rewrite contributors_new_entry by assumption.
      rewrite Nat2Z.inj_succ, <- Hinv. lia.
    + rewrite contributors_other_batch by congruence. apply Hinv.
Qed.

Lemma reachable_count_contributors s :
  reachable s -> forall b, count s b = Z.of_nat (size (contributors s b)).
Proof.
  induction 1 as [env|env msg s Hr IH]; intros b.
  - apply deploy_count_contributors.
  - apply call_count_contributors; [by apply reachable_slots_bounded|exact IH].
Qed.

(** In a reachable storage the count of every batch is the number of
    contributors recorded for it. *)
Theorem count_is_number_of_contributors s b :
  reachable s -> count s b = Z.of_nat (size (contributors s b)).
Proof. intros Hr. by apply reachable_count_contributors. Qed.

(** In a reachable storage batch 0 and the batches after the current one
    are blank: zero handle, count 0, no contributor.  Batch ids start at
    1. *)
Theorem unopened_batches_are_blank s b :
  reachable s ->
  b < 1 \/ currentBatchId s < b ->
  dataSum s b = FHE.zero_handle /\
  count s b = 0 /\
  forall a, submitted s b a = false.
Proof.
  intros Hr Hb.
  destruct (reachable_unopened_batch s b Hr Hb) as [Hsum Hsub].
  repeat split; [exact Hsum| |exact Hsub].
  rewrite (reachable_count_contributors s Hr b).
  replace (contributors s b) with (∅ : gmap (Z * Z) bool);
    [by rewrite map_size_empty|].
  symmetry. apply map_empty. intros [b' a]. apply map_lookup_filter_None.
  destruct (hasSubmitted s !! (b', a)) as [x|] eqn:E; [right|by left].
  intros y Hy [Hb' Htrue]. cbn in *. subst b'.
  specialize (Hsub a). unfold submitted, rd in Hsub. rewrite E in Hsub.
  cbn in Hsub. congruence.
Qed.

(** ** Several submissions *)

Lemma submitData_ok env v s :
  isProvider s (msg_sender env) = true ->
  paused s = false ->
  submission_cooldown_elapsed env s ->
  batchOpen s = true ->
  submitted s (currentBatchId s) (msg_sender env) = false ->
  count s (currentBatchId s) < max_uint256 ->
  call env (SubmitData v) s =
    (set_lastSubmissionTime
       (<[msg_sender env := block_timestamp env]> (lastSubmissionTime s))
       (set_hasSubmitted
          (<[(currentBatchId s, msg_sender env) := true]> (hasSubmitted s))
          (set_dataCount
             (<[currentBatchId s := count s (currentBatchId s) + 1]>
                (dataCount s))
             (set_encryptedDataSum
                (<[currentBatchId s :=
                     FHE.add (dataSum s (currentBatchId s))
                       (_initIfNeeded (FHE.asEuint32 v))]>
                   (encryptedDataSum s)) s))),
     Committed [Ev.DataSubmitted (msg_sender env) (currentBatchId s) v]).
Proof.
  intros Hprov Hp Hcd Ho Hsub Hcount.
  destruct (cooldown_elapsed_tests _ _ _ Hcd) as [Hle Hlt].
  assert (Hinc : (count s (currentBatchId s) + 1 <=? max_uint256) = true)
    by (apply Z.leb_le; lia).
  unfold_sol.
  repeat (first [rewrite Hprov | rewrite Hp | rewrite Hle | rewrite Hlt
                | rewrite Ho | rewrite Hsub]; cbn).
  change (count (set_encryptedDataSum _ s) (currentBatchId s))
    with (count s (currentBatchId s)).
  rewrite Hinc. reflexivity.
Qed.

Lemma submissions_accumulate env l : forall s,
  paused s = false ->
  batchOpen s = true ->
  NoDup (map fst l) ->
  Forall (fun pv => can_submit env s pv.1) l ->
  count s (currentBatchId s) + Z.of_nat (length l) <= max_uint256 ->
  currentBatchId (run (map (submit_by env) l) s) = currentBatchId s /\
  dataSum (run (map (submit_by env) l) s) (currentBatchId s)
  = fold_left accumulate l (dataSum s (currentBatchId s)) /\
  count (run (map (submit_by env) l) s) (currentBatchId s)
  = count s (currentBatchId s) + Z.of_nat (length l) /\
  Forall (fun pv =>
            submitted (run (map (submit_by env) l) s) (currentBatchId s) pv.1
            = true) l.
Proof.
  induction l as [|[p v] l IH]; intros s Hp Ho Hnd Hall Hcount.
  - cbn. repeat split; [lia|constructor].
  - apply NoDup_cons_iff in Hnd as [Hnotin Hnd].
    apply Forall_cons_iff in Hall as [(Hprov & Hsub & Hcd) Hall].
    cbn [length] in Hcount. cbn [map run submit_by fst snd].
    rewrite submitData_ok;
      [|assumption..| cbn in *; lia].
    cbn [fst].
    match goal with |- context [run _ ?s1] => set (s1' := s1) end.
    assert (Hid : currentBatchId s1' = currentBatchId s) by reflexivity.
    destruct (IH s1') as (IHid & IHsum & IHcount & IHall).
    + exact Hp.
    + exact Ho.
    + exact Hnd.
    + rewrite Forall_forall in Hall |- *. intros [q w] Hin.
      assert (Hq : q <> p).
      { intros ->. apply Hnotin, in_map_iff. by exists (p, w). }
      destruct (Hall _ Hin) as (Hprov' & Hsub' & Hcd').
      unfold can_submit, isProvider, submitted, lastSubmission, rd in *.
      cbn in *. repeat split; try assumption.
      * rewrite lookup_insert_ne; [assumption|]. congruence.
      * rewrite lookup_insert_ne; [apply Hcd'|]. congruence.
      * rewrite lookup_insert_ne; [apply Hcd'|]. congruence.
    + rewrite Hid. unfold count, rd in *. cbn in *.
      rewrite lookup_insert_eq. cbn. lia.
    + rewrite Hid in *. repeat split.
      * exact IHid.
      * rewrite IHsum. cbn [fold_left]. f_equal.
        unfold dataSum, rd, accumulate. cbn. by rewrite lookup_insert_eq.
      * rewrite IHcount. unfold count, rd. cbn.
        rewrite lookup_insert_eq. cbn. unfold count, rd. lia.
      * constructor; [|exact IHall]. cbn.
        apply run_preserves_submitted.
        unfold submitted, rd. cbn. by rewrite lookup_insert_eq.
Qed.

(** Submissions by distinct providers, each allowed to submit, all commit
    in turn: the accumulator of the open batch is the left fold of
    [FHE.add] over the submitted values, in order, and the count grows by
    their number. *)
Theorem submissions_fold_into_accumulator env l s :
  paused s = false ->
  batchOpen s = true ->
  NoDup (map fst l) ->
  Forall (fun pv => can_submit env s pv.1) l ->
  count s (currentBatchId s) + Z.of_nat (length l) <= max_uint256 ->
  dataSum (run (map (submit_by env) l) s) (currentBatchId s)
  = fold_left accumulate l (dataSum s (currentBatchId s)) /\
  count (run (map (submit_by env) l) s) (currentBatchId s)
  = count s (currentBatchId s) + Z.of_nat (length l).
Proof.
  intros Hp Ho Hnd Hall Hcount.
  by destruct (submissions_accumulate env l s Hp Ho Hnd Hall Hcount)
    as (_ & Hsum & Hn & _).
Qed.

Lemma fold_left_accumulate_perm l l' :
  (forall a b : FHE.euint32, FHE.add a b = FHE.add b a) ->
  (forall a b c : FHE.euint32,
     FHE.add (FHE.add a b) c = FHE.add a (FHE.add b c)) ->
  Permutation l l' ->
  forall acc, fold_left accumulate l acc = fold_left accumulate l' acc.
Proof.
  intros Hcomm Hassoc. induction 1 as [|x l l' _ IH|x y l|l l' l'' _ IH1 _ IH2];
    intros acc; cbn.
  - reflexivity.
  - apply IH.
  - f_equal. unfold accumulate. rewrite !Hassoc. f_equal. apply Hcomm.
  - by rewrite IH1.
Qed.

(** With a commutative and associative [FHE.add], the accumulator does not
    depend on the order in which distinct providers submit. *)
Theorem accumulator_is_order_independent env l l' s :
  (forall a b : FHE.euint32, FHE.add a b = FHE.add b a) ->
  (forall a b c : FHE.euint32,
     FHE.add (FHE.add a b) c = FHE.add a (FHE.add b c)) ->
  paused s = false ->
  batchOpen s = true ->
  NoDup (map fst l) ->
  Forall (fun pv => can_submit env s pv.1) l ->
  count s (currentBatchId s) + Z.of_nat (length l) <= max_uint256 ->
  Permutation l l' ->
  dataSum (run (map (submit_by env) l') s) (currentBatchId s)
  = dataSum (run (map (submit_by env) l) s) (currentBatchId s) /\
  count (run (map (submit_by env) l') s) (currentBatchId s)
  = count (run (map (submit_by env) l) s) (currentBatchId s).
Proof.
  intros Hcomm Hassoc Hp Ho Hnd Hall Hcount Hperm.
  destruct (submissions_accumulate env l s Hp Ho Hnd Hall Hcount)
    as (_ & Hsum & Hn & _).
  destruct (submissions_accumulate env l' s Hp Ho) as (_ & Hsum' & Hn' & _).
  - eapply Permutation_NoDup; [|exact Hnd]. by apply Permutation_map.
  - eapply Permutation_Forall; [exact Hperm|exact Hall].
  - by rewrite <- (Permutation_length Hperm).
  - rewrite Hsum, Hsum', Hn, Hn'. split.
    + symmetry. by apply fold_left_accumulate_perm.
    + by rewrite (Permutation_length Hperm).
Qed.

(** ** Decryption contexts *)

(** A call changes the context stored under an identifier only when it is
    a committed request that was issued that identifier, which stores a
    fresh unprocessed context for the current batch, or a committed
    myCallback for that identifier, which marks the context processed and
    keeps its batch and commitment. *)
Theorem contexts_change_only_by_request_and_callback env msg s r :
  context (fst (call env msg s)) r = context s r \/
  (msg = RequestBatchResultDecryption /\ r = issued_requestId env /\
   context (fst (call env msg s)) r
   = {| batchId := currentBatchId s;
        stateHash :=
          _hashCiphertexts env
            [FHE.toBytes32 (dataSum s (currentBatchId s))];
        processed := false |}) \/
  (exists c p, msg = MyCallback r c p /\
   context (fst (call env msg s)) r = mark_processed (context s r)).
Proof.
  destruct msg; sol_cases; try (left; reflexivity).
  - destruct (decide (r = issued_requestId env)) as [->|Hne].
    + right; left. repeat split.
      unfold context, rd. cbn. by rewrite lookup_insert_eq.
    + left. unfold context, rd. cbn. by rewrite lookup_insert_ne.
  - destruct (decide (r = requestId)) as [->|Hne].
    + right; right. do 2 eexists. split; [reflexivity|].
      unfold context, rd. cbn. by rewrite lookup_insert_eq.
    + left. unfold context, rd. cbn. by rewrite lookup_insert_ne.
Qed.

(** An answer that the library's signature check refuses, or one whose
    cleartext is shorter than 32 bytes, is rejected without consuming the
    request: the call reverts, with [DecryptionFailed] and with the decode
    error, and the context is as pending as before. *)
Theorem rejected_answer_leaves_request_pending env r c p s :
  processed (context s r) = false ->
  accumulator_initialized s r = true ->
  recomputed_commitment env s r = stateHash (context s r) ->
  (FHE.checkSignatures r c p = false ->
   call env (MyCallback r c p) s = (s, Reverted Err.DecryptionFailed)) /\
  (FHE.checkSignatures r c p = true -> (length c < 32)%nat ->
   call env (MyCallback r c p) s = (s, Reverted Err.DecodeError)).
Proof.
  unfold accumulator_initialized, recomputed_commitment.
  intros Hpending Hinit Hmatch. apply Z.eqb_eq in Hmatch.
  split.
  - intros Hsig. unfold_sol. cbn. rewrite Hpending. cbn. rewrite Hinit. cbn.
    rewrite Hmatch. cbn. rewrite Hsig. reflexivity.
  - intros Hsig Hlen. apply Nat.ltb_lt in Hlen.
    unfold_sol. cbn. rewrite Hpending. cbn. rewrite Hinit. cbn.
    rewrite Hmatch. cbn. rewrite Hsig. unfold abi_decode_uint256.
    rewrite Hlen. reflexivity.
Qed.

(** myCallback asks nothing of its caller: its outcome is the same for
    every sender and block time, and the same whether the contract is
    paused or not. *)
Theorem myCallback_is_open_to_anyone env env' r c p s flag :
  this env = this env' ->
  call env (MyCallback r c p) (set_paused flag s)
  = (set_paused flag (fst (call env' (MyCallback r c p) s)),
     snd (call env' (MyCallback r c p) s)).
Proof.
  intros Hthis. unfold_sol. unfold _hashCiphertexts, context, dataSum, rd.
  rewrite Hthis. cbn.
  repeat match goal with
    | |- context [if ?b then _ else _] => destruct b eqn:?; cbn
    | |- context [match ?o with Some _ => _ | None => _ end] =>
        destruct o eqn:?; cbn
    end; reflexivity.
Qed.

Lemma requestBatchResultDecryption_ok env s :
  isProvider s (msg_sender env) = true ->
  paused s = false ->
  request_cooldown_elapsed env s ->
  batchOpen s = false ->
  count s (currentBatchId s) <> 0 ->
  call env RequestBatchResultDecryption s =
    (set_lastDecryptionRequestTime
       (<[msg_sender env := block_timestamp env]>
          (lastDecryptionRequestTime s))
       (set_decryptionContexts
          (<[issued_requestId env :=
               {| batchId := currentBatchId s;
                  stateHash :=
                    _hashCiphertexts env
                      [FHE.toBytes32 (dataSum s (currentBatchId s))];
                  processed := false |}]> (decryptionContexts s)) s),
     Committed [Ev.DecryptionRequested (issued_requestId env)
                  (currentBatchId s)]).
Proof.
  intros Hprov Hp Hcd Ho Hcount.
  destruct (cooldown_elapsed_tests _ _ _ Hcd) as [Hle Hlt].
  apply Z.eqb_neq in Hcount. unfold_sol.
  repeat (first [rewrite Hprov | rewrite Hp | rewrite Hle | rewrite Hlt
                | rewrite Ho | rewrite Hcount]; cbn).
  reflexivity.
Qed.

(** Request and answer compose: after a committed request, a callback for
    the issued identifier with signatures the library accepts and a
    cleartext of at least 32 bytes passes the replay and commitment tests
    and emits the decoded result for the requested batch, provided the
    batch's accumulator is initialised. *)
Theorem request_then_resolve env env' c p result s :
  isProvider s (msg_sender env) = true ->
  paused s = false ->
  request_cooldown_elapsed env s ->
  batchOpen s = false ->
  count s (currentBatchId s) <> 0 ->
  fst (FHE.isInitialized (dataSum s (currentBatchId s))) = true ->
  this env' = this env ->
  FHE.checkSignatures (issued_requestId env) c p = true ->
  abi_decode_uint256 c = Some result ->
  snd (call env' (MyCallback (issued_requestId env) c p)
         (fst (call env RequestBatchResultDecryption s)))
  = Committed [Ev.DecryptionCompleted (issued_requestId env)
                 (currentBatchId s) result] /\
  processed
    (context
       (fst (call env' (MyCallback (issued_requestId env) c p)
               (fst (call env RequestBatchResultDecryption s))))
       (issued_requestId env)) = true.
Proof.
  intros Hprov Hp Hcd Ho Hcount Hinit Hthis Hsig Hdec.
  rewrite requestBatchResultDecryption_ok by assumption. cbn [fst].
  unfold_sol. unfold context, dataSum, rd, _hashCiphertexts in *. cbn.
  repeat (first [rewrite lookup_insert_eq | rewrite Hinit | rewrite Hthis
                | rewrite Z.eqb_refl | rewrite Hsig | rewrite Hdec]; cbn).
  by split.
Qed.

(** ** Events *)

(** Every committed call logs exactly one event: the one of its function,
    with the values it acted on. *)
Theorem committed_call_emits_exactly_one_event env msg s s' log :
  call env msg s = (s', Committed log) ->
  exists ev, log = [ev] /\ announced env s msg ev.
Proof.
  destruct msg; sol_cases; intros H; inversion H; subst;
    eexists; (split; [reflexivity|]); cbn; eauto.
Qed.

(** ** Initialisation helpers *)

(** [_requireInitialized] refuses an uninitialised value with
    [InvalidArgument], and accepts whatever [_initIfNeeded] returns when
    the library's [init] yields an initialised value; either way it leaves
    the storage and the log alone. *)
Theorem _requireInitialized_after_initIfNeeded (val : FHE.euint32) s log :
  (forall v k, fst (FHE.isInitialized (FHE.init v k)) = true) ->
  _requireInitialized (_initIfNeeded val) s log = Return tt s log /\
  (fst (FHE.isInitialized val) = false ->
   _requireInitialized val s log = Revert Err.InvalidArgument s).
Proof.
  intros Hinit. unfold _requireInitialized, _initIfNeeded. split.
  - destruct (FHE.isInitialized val) as [initialized k] eqn:E.
    destruct initialized.
    + by rewrite E.
    + specialize (Hinit val k).
      destruct (FHE.isInitialized (FHE.init val k)) as [i' k']. cbn in Hinit.
      by subst.
  - intros Hno. destruct (FHE.isInitialized val) as [initialized k].
    cbn in Hno. by subst.
Qed.

End Properties.

(** * The properties on the scenarios *)

Import Scenario.

(** A stranger's openBatch reverts and the storage is the deployed one. *)
Lemma failed_call_changes_nothing_witness :
  fst (call (by_ bob 1000) OpenBatch deployed) = deployed.
Proof.
  apply (failed_call_changes_nothing (by_ bob 1000) OpenBatch deployed
           _ Err.NotOwner).
  reflexivity.
Defined.

(** The owner cannot close the batch while the contract is paused. *)
Lemma paused_blocks_gated_calls_witness :
  call (by_ alice 1000) CloseBatch opened_paused
  = (opened_paused, Reverted Err.Paused).
Proof.
  apply (paused_blocks_gated_calls (by_ alice 1000) CloseBatch opened_paused);
    reflexivity.
Defined.

(** C7 does not hold as stated: while the contract is paused the owner's
    setCooldownSeconds commits and changes the cooldown, and myCallback
    commits and resolves a pending request. *)
Lemma unpaused_calls_example :
  paused opened_paused = true /\
  call (by_ alice 1010) (SetCooldownSeconds 5) opened_paused
  = (set_cooldownSeconds 5 opened_paused, Committed [Ev.CooldownSet 60 5]) /\
  paused requested_paused = true /\
  snd (call (by_ bob 1300) (MyCallback 1 (word x0a) [x01%byte])
         requested_paused)
  = Committed [Ev.DecryptionCompleted 1 1 10].
Proof. repeat split. Qed.

(** With batch 1 open the request is refused as not closed; with batch 1
    closed and empty it is refused as having no data. *)
Lemma request_needs_closed_nonempty_batch_witness :
  call (by_ alice 1000) RequestBatchResultDecryption opened
  = (opened, Reverted Err.BatchNotClosed) /\
  call (by_ alice 1000) RequestBatchResultDecryption closed_empty
  = (closed_empty, Reverted Err.InvalidArgument).
Proof.
  split.
  - apply (request_needs_closed_nonempty_batch (by_ alice 1000) opened);
      [reflexivity | reflexivity | split; vm_compute; discriminate
      | reflexivity].
  - apply (request_needs_closed_nonempty_batch (by_ alice 1000) closed_empty);
      [reflexivity | reflexivity | split; vm_compute; discriminate
      | reflexivity | reflexivity].
Defined.

(** C8 does not hold as stated: with a batch open, a provider's request
    made while the contract is paused reverts with [Paused], and one made
    within the caller's cooldown reverts with [CooldownActive]. *)
Lemma request_other_reverts_example :
  isProvider opened_paused alice = true /\
  batchOpen opened_paused = true /\
  call (by_ alice 1000) RequestBatchResultDecryption opened_paused
  = (opened_paused, Reverted Err.Paused) /\
  isProvider opened alice = true /\
  batchOpen opened = true /\
  call (by_ alice 30) RequestBatchResultDecryption opened
  = (opened, Reverted Err.CooldownActive).
Proof. repeat split. Qed.

(** The owner opens batch 1 on the deployed contract, and cannot open
    another while it is open. *)
Lemma openBatch_opens_fresh_batch_witness :
  snd (call (by_ alice 1000) OpenBatch deployed)
  = Committed [Ev.BatchOpened 1] /\
  currentBatchId (fst (call (by_ alice 1000) OpenBatch deployed)) = 1 /\
  call (by_ alice 1000) OpenBatch opened
  = (opened, Reverted Err.InvalidArgument).
Proof.
  destruct (openBatch_opens_fresh_batch (by_ alice 1000) deployed)
    as (_ & Hopen & _);
    [apply reachable_deploy | reflexivity | reflexivity |].
  destruct Hopen as (Hlog & Hid & _);
    [reflexivity | vm_compute; reflexivity |].
  split; [exact Hlog | split; [exact Hid |]].
  apply (openBatch_opens_fresh_batch (by_ alice 1000) opened);
    [apply (reachable_run [(by_ alice 1000, OpenBatch)]), reachable_deploy
    | reflexivity | reflexivity | reflexivity].
Defined.

(** C9 does not hold as stated: where the batch id is 2^256-1 and no batch
    is open, openBatch called by the owner while not paused does not
    increment the id: the checked increment reverts.  Such a storage is
    reachable: the owner gets there by opening and closing batches. *)
Lemma openBatch_at_max_id_example :
  (msg_sender (by_ alice 1000) = owner at_max_id /\
   paused at_max_id = false /\
   batchOpen at_max_id = false /\
   call (by_ alice 1000) OpenBatch at_max_id
   = (at_max_id, Reverted Err.Panic)) /\
  exists s : State (L := Clear.lib),
    reachable s /\
    msg_sender (by_ alice 1000) = owner s /\
    paused s = false /\
    batchOpen s = false /\
    call (by_ alice 1000) OpenBatch s = (s, Reverted Err.Panic).
Proof.
  split; [repeat split|].
  destruct (batch_id_reachable (L := Clear.lib) (by_ alice 1000)
              max_uint256)
    as (s & Hr & Hown & Hp & Ho & Hid); [vm_compute; split; discriminate|].
  exists s. repeat split; [assumption | by symmetry | assumption..|].
  assert (Hown' : (msg_sender (by_ alice 1000) =? owner s) = true)
    by (apply Z.eqb_eq; by rewrite Hown).
  unfold_sol.
  repeat (first [rewrite Hown' | rewrite Hp | rewrite Ho | rewrite Hid]; cbn).
  reflexivity.
Qed.

(** Alice submits to batch 1; bob becomes a provider and submits too;
    alice's next submission, long after her cooldown, is refused as already
    made; once the batch is closed it is refused as not open, and within
    her cooldown as too early. *)
Lemma provider_submits_once_per_batch_witness :
  call (by_ alice 2000) (SubmitData 3)
    (run [(by_ alice 1500, AddProvider bob); (by_ bob 1600, SubmitData 20)]
       submitted_once)
  = (run [(by_ alice 1500, AddProvider bob); (by_ bob 1600, SubmitData 20)]
       submitted_once,
     Reverted Err.InvalidArgument) /\
  call (by_ alice 2000) (SubmitData 3)
    (run [(by_ alice 1100, CloseBatch)] submitted_once)
  = (run [(by_ alice 1100, CloseBatch)] submitted_once,
     Reverted Err.BatchNotOpen) /\
  call (by_ alice 1030) (SubmitData 3) (run [] submitted_once)
  = (run [] submitted_once, Reverted Err.CooldownActive).
Proof.
  split; [|split].
  - destruct (provider_submits_once_per_batch
                (by_ alice 1000) 10 opened submitted_once
                [Ev.DataSubmitted alice 1 10]
                [(by_ alice 1500, AddProvider bob);
                 (by_ bob 1600, SubmitData 20)]
                (by_ alice 2000) 3)
      as (e & Hcall & _ & _ & _ & _ & _ & He);
      [reflexivity | reflexivity | reflexivity |].
    rewrite Hcall.
    rewrite He;
      [reflexivity | reflexivity | reflexivity
      | split; vm_compute; discriminate | reflexivity].
  - destruct (provider_submits_once_per_batch
                (by_ alice 1000) 10 opened submitted_once
                [Ev.DataSubmitted alice 1 10]
                [(by_ alice 1100, CloseBatch)]
                (by_ alice 2000) 3)
      as (e & Hcall & _ & _ & _ & _ & He & _);
      [reflexivity | reflexivity | reflexivity |].
    rewrite Hcall.
    rewrite He;
      [reflexivity | reflexivity | reflexivity
      | split; vm_compute; discriminate | reflexivity].
  - destruct (provider_submits_once_per_batch
                (by_ alice 1000) 10 opened submitted_once
                [Ev.DataSubmitted alice 1 10] []
                (by_ alice 1030) 3)
      as (e & Hcall & _ & _ & _ & He & _ & _);
      [reflexivity | reflexivity | reflexivity |].
    rewrite Hcall.
    rewrite He;
      [reflexivity | reflexivity | reflexivity
      | vm_compute; discriminate | vm_compute; reflexivity].
Defined.

(** C6 does not hold as stated: a second submission by the same provider
    to the same batch, made within the provider's cooldown, reverts with
    [CooldownActive], and one made after the batch was closed reverts with
    [BatchNotOpen]: the already-submitted test is the last one. *)
Lemma resubmission_other_reverts_example :
  call (by_ alice 1000) (SubmitData 10) opened
  = (submitted_once, Committed [Ev.DataSubmitted alice 1 10]) /\
  currentBatchId submitted_once = currentBatchId opened /\
  call (by_ alice 1030) (SubmitData 3) submitted_once
  = (submitted_once, Reverted Err.CooldownActive) /\
  currentBatchId (run [(by_ alice 1100, CloseBatch)] submitted_once)
  = currentBatchId opened /\
  call (by_ alice 2000) (SubmitData 3)
    (run [(by_ alice 1100, CloseBatch)] submitted_once)
  = (run [(by_ alice 1100, CloseBatch)] submitted_once,
     Reverted Err.BatchNotOpen).
Proof. repeat split. Qed.

(** Request 1 is resolved; whatever follows, here a second request under
    the fresh identifier 2 and a new batch, a callback for request 1 is a
    replay. *)
Lemma processed_is_permanent_witness :
  processed (context (run aftermath resolved) 1) = true /\
  call (by_ bob 5000) (MyCallback 1 (word x0a) [x01%byte])
    (run aftermath resolved)
  = (run aftermath resolved, Reverted Err.ReplayDetected).
Proof.
  assert (Hfresh : fresh_ids aftermath resolved).
  { repeat split; intros H; solve [discriminate H | reflexivity]. }
  destruct (processed_is_permanent 1 aftermath resolved Hfresh)
    as [Hkeep Hreplay].
  split.
  - apply Hkeep. reflexivity.
  - apply (Hreplay (by_ bob 1300) (word x0a) [x01%byte] requested
             [Ev.DecryptionCompleted 1 1 10]).
    reflexivity.
Defined.

(** Why the identifiers must be fresh: were the oracle to issue identifier 1
    a second time, the new request would replace the resolved context. *)
Example reissued_identifier_replaces_context :
  processed (context resolved 1) = true /\
  processed
    (context (fst (call (by_ alice 1400) RequestBatchResultDecryption
                     resolved)) 1)
  = false.
Proof. split; reflexivity. Qed.


(** No context is stored under 7 on the deployed contract. *)
Lemma unknown_request_reverts_witness :
  call (by_ bob 1000) (MyCallback 7 (word x0a) [x01%byte]) deployed
  = (deployed, Reverted Err.DecryptionFailed).
Proof.
  apply (unknown_request_reverts (by_ bob 1000) 7 (word x0a) [x01%byte]
           deployed);
    [apply reachable_deploy | reflexivity | reflexivity].
Defined.

(** C1 does not hold as stated: with request 1 pending and nothing stored
    under 9, myCallback for 9 reverts with [DecryptionFailed], the error of
    a failed verification. *)
Lemma unknown_request_example :
  decryptionContexts requested !! 9 = None /\
  call (by_ bob 1300) (MyCallback 9 [] []) requested
  = (requested, Reverted Err.DecryptionFailed).
Proof. split; reflexivity. Qed.


(** ** Further scenarios *)

(** The commitment stored with request 1 is the one recomputed later. *)
Lemma stored_commitment_is_current_witness :
  recomputed_commitment (by_ bob 1300) requested 1
  = stateHash (context requested 1).
Proof.
  apply (stored_commitment_is_current 100 (by_ bob 1300) 1 requested).
  - unfold requested, submitted_once, opened, deployed.
    repeat (apply reachable_at_run; [repeat constructor|]).
    apply reachable_at_deploy.
  - reflexivity.
  - eexists. reflexivity.
Defined.

Lemma closeBatch_keeps_batch_id_witness :
  batchOpen (fst (call (by_ alice 1100) CloseBatch submitted_once)) = false /\
  currentBatchId (fst (call (by_ alice 1100) CloseBatch submitted_once)) = 1.
Proof.
  destruct (closeBatch_keeps_batch_id (by_ alice 1100) submitted_once)
    as (_ & Hclosed & Hid); [reflexivity..|].
  split; [exact Hclosed | exact Hid].
Defined.

Lemma submitData_accumulates_witness :
  dataSum (fst (call (by_ alice 1000) (SubmitData 10) opened)) 1
  = FHE.add (FHE.asEuint32 0) (FHE.asEuint32 10) /\
  count (fst (call (by_ alice 1000) (SubmitData 10) opened)) 1 = 1.
Proof.
  destruct (submitData_accumulates (by_ alice 1000) 10 opened)
    as (_ & Hsum & Hcount & _);
    [reflexivity | reflexivity | split; vm_compute; discriminate
    | reflexivity | reflexivity | vm_compute; reflexivity |].
  split; [exact Hsum | exact Hcount].
Defined.

Lemma request_records_commitment_witness :
  context (fst (call (by_ alice 1100) RequestBatchResultDecryption
                  closed_once)) 1
  = {| batchId := 1;
       stateHash :=
         _hashCiphertexts (L := Clear.lib) (by_ alice 1100)
           [FHE.toBytes32 (dataSum closed_once 1)];
       processed := false |}.
Proof.
  destruct (request_records_commitment (by_ alice 1100) closed_once)
    as (_ & Hctx & _);
    [reflexivity | reflexivity | split; vm_compute; discriminate
    | reflexivity | vm_compute; discriminate |].
  exact Hctx.
Defined.

Lemma myCallback_accepts_valid_result_witness :
  snd (call (by_ bob 1300) (MyCallback 1 (word x0a) [x01%byte]) requested)
  = Committed [Ev.DecryptionCompleted 1 1 10].
Proof.
  apply (myCallback_accepts_valid_result (by_ bob 1300) 1 (word x0a)
           [x01%byte] requested 10); reflexivity.
Defined.

(** The owner opens batch 1; alice and bob submit 10 and 20; the owner
    closes the batch; alice requests the decryption; the oracle answers
    30 with a valid proof.  The result 30 is accepted for batch 1, once: the
    same answer a second time is a replay. *)
Example two_providers_end_to_end :
  snd (call (by_ bob 1200) (MyCallback 1 (word x1e) [x01%byte])
         (run two_providers deployed))
  = Committed [Ev.DecryptionCompleted 1 1 30] /\
  snd (call (by_ bob 1201) (MyCallback 1 (word x1e) [x01%byte])
         (run ((by_ bob 1200, MyCallback 1 (word x1e) [x01%byte])
                 :: nil)
            (run two_providers deployed)))
  = Reverted Err.ReplayDetected.
Proof. split; reflexivity. Qed.

(** ** Scenarios for the remaining functions *)

Ltac scenario_reachable :=
  unfold requested, closed_once, submitted_once, with_bob, opened, deployed;
  repeat match goal with
    | |- reachable (run _ _) => apply reachable_run
    end;
  apply reachable_deploy.

Lemma Clear_add_comm (a b : Z) :
  FHE.add (Lib := Clear.lib) a b = FHE.add (Lib := Clear.lib) b a.
Proof.
  change ((a - 1 + (b - 1)) mod 2 ^ 32 + 1 = (b - 1 + (a - 1)) mod 2 ^ 32 + 1).
  f_equal. f_equal. lia.
Qed.

Lemma Clear_add_assoc (a b c : Z) :
  FHE.add (Lib := Clear.lib) (FHE.add (Lib := Clear.lib) a b) c
  = FHE.add (Lib := Clear.lib) a (FHE.add (Lib := Clear.lib) b c).
Proof.
  change (((a - 1 + (b - 1)) mod 2 ^ 32 + 1 - 1 + (c - 1)) mod 2 ^ 32 + 1
          = (a - 1 + ((b - 1 + (c - 1)) mod 2 ^ 32 + 1 - 1)) mod 2 ^ 32 + 1).
  generalize (2 ^ 32). intros M.
  rewrite !Z.add_simpl_r, Zplus_mod_idemp_l, Zplus_mod_idemp_r.
  f_equal. f_equal. lia.
Qed.

(** A stranger's setCooldownSeconds(0) is refused for the role, not for
    the argument. *)
Lemma role_check_comes_first_witness :
  call (by_ bob 1000) (SetCooldownSeconds 0) deployed
  = (deployed, Reverted Err.NotOwner).
Proof.
  apply (role_check_comes_first (by_ bob 1000) (SetCooldownSeconds 0)
           deployed).
  reflexivity.
Defined.

(** Bob, a provider, submits: none of the owner's fields moves. *)
Lemma only_owner_administers_witness :
  admin_fields (fst (call (by_ bob 1000) (SubmitData 20) with_bob))
  = admin_fields with_bob.
Proof.
  apply (only_owner_administers (by_ bob 1000) (SubmitData 20) with_bob).
  vm_compute. discriminate.
Defined.

Lemma stranger_can_only_resolve_witness :
  fst (call (by_ bob 1300) (MyCallback 1 (word x0a) [x01%byte]) requested)
  = requested \/
  exists r c p,
    MyCallback 1 (word x0a) [x01%byte] = MyCallback r c p /\
    fst (call (by_ bob 1300) (MyCallback 1 (word x0a) [x01%byte]) requested)
    = set_decryptionContexts
        (<[r := mark_processed (context requested r)]>
           (decryptionContexts requested)) requested.
Proof.
  apply (stranger_can_only_resolve (by_ bob 1300)
           (MyCallback 1 (word x0a) [x01%byte]) requested).
  - vm_compute. discriminate.
  - reflexivity.
Defined.

Lemma owner_sets_membership_witness :
  isProvider (fst (call (by_ alice 1000) (AddProvider bob) opened)) bob
  = true /\
  isProvider (fst (call (by_ alice 1000) (RemoveProvider bob) with_bob)) bob
  = false.
Proof.
  split.
  - apply (owner_sets_membership (by_ alice 1000) bob opened). reflexivity.
  - apply (owner_sets_membership (by_ alice 1000) bob with_bob). reflexivity.
Defined.

(** The owner removes itself from the providers and can no longer
    submit. *)
Lemma removed_provider_is_locked_out_witness :
  call (by_ alice 1000) (SubmitData 10)
    (fst (call (by_ alice 1000) (RemoveProvider alice) opened))
  = (fst (call (by_ alice 1000) (RemoveProvider alice) opened),
     Reverted Err.NotProvider).
Proof.
  apply (removed_provider_is_locked_out (by_ alice 1000) (by_ alice 1000)
           alice 10 opened); reflexivity.
Defined.

Lemma pause_unpause_round_trip_witness :
  fst (call (by_ alice 1002) Unpause (fst (call (by_ alice 1001) Pause opened)))
  = opened.
Proof.
  destruct (pause_unpause_round_trip (by_ alice 1001) (by_ alice 1002) opened)
    as [Hround _]; [reflexivity | reflexivity |].
  apply Hround. reflexivity.
Defined.

Lemma cooldown_never_zero_witness :
  (cooldownSeconds locked =? 0) = false.
Proof.
  apply Z.eqb_neq, (cooldown_never_zero locked).
  unfold locked. scenario_reachable.
Defined.

(** Alice submitted at 1000 with a cooldown of 60: at 1030 her submission
    is refused; bob, who never requested, is refused at block time 30. *)
Lemma active_cooldown_blocks_witness :
  call (by_ alice 1030) (SubmitData 3) submitted_once
  = (submitted_once, Reverted Err.CooldownActive) /\
  call (by_ bob 30) RequestBatchResultDecryption with_bob
  = (with_bob, Reverted Err.CooldownActive).
Proof.
  split.
  - apply (active_cooldown_blocks (by_ alice 1030) 3 submitted_once);
      [reflexivity | reflexivity | vm_compute; discriminate
      | vm_compute; reflexivity].
  - apply (active_cooldown_blocks (by_ bob 30) 0 with_bob);
      [reflexivity | reflexivity | vm_compute; discriminate
      | vm_compute; reflexivity].
Defined.

Lemma cooldown_overflow_panics_witness :
  call (by_ alice 5000) (SubmitData 3) locked = (locked, Reverted Err.Panic).
Proof.
  apply (cooldown_overflow_panics (by_ alice 5000) 3 locked);
    [reflexivity | reflexivity | vm_compute; reflexivity].
Defined.

(** Batch 1, closed with alice's 10, is untouched by batch 2. *)
Lemma closed_batch_is_frozen_witness :
  dataSum (run next_batch closed_once) 1 = dataSum closed_once 1 /\
  count (run next_batch closed_once) 1 = 1.
Proof.
  destruct (closed_batch_is_frozen next_batch closed_once 1)
    as (Hsum & Hcount & _);
    [vm_compute; discriminate | right; reflexivity |].
  split; [exact Hsum | rewrite Hcount; reflexivity].
Defined.

Lemma count_is_number_of_contributors_witness :
  count (run two_providers deployed) 1
  = Z.of_nat (size (contributors (run two_providers deployed) 1)).
Proof.
  apply (count_is_number_of_contributors (run two_providers deployed) 1).
  scenario_reachable.
Defined.

Lemma unopened_batches_are_blank_witness :
  count requested 0 = 0 /\ count requested 5 = 0.
Proof.
  split.
  - apply (unopened_batches_are_blank requested 0);
      [scenario_reachable | left; reflexivity].
  - apply (unopened_batches_are_blank requested 5);
      [scenario_reachable | right; reflexivity].
Defined.

Lemma contributions_can_submit :
  Forall (fun pv => can_submit (by_ alice 1000) with_bob pv.1) contributions.
Proof.
  repeat constructor; try (vm_compute; discriminate).
Qed.

Lemma submissions_fold_into_accumulator_witness :
  dataSum (run (map (submit_by (by_ alice 1000)) contributions) with_bob) 1
  = FHE.asEuint32 30 /\
  count (run (map (submit_by (by_ alice 1000)) contributions) with_bob) 1 = 2.
Proof.
  destruct (submissions_fold_into_accumulator (by_ alice 1000) contributions
              with_bob) as [Hsum Hcount];
    [reflexivity | reflexivity
    | repeat constructor; vm_compute; intuition discriminate
    | exact contributions_can_submit
    | vm_compute; discriminate |].
  split; (etransitivity; [first [exact Hsum | exact Hcount] | reflexivity]).
Defined.

Lemma accumulator_is_order_independent_witness :
  dataSum (run (map (submit_by (by_ alice 1000)) (rev contributions))
             with_bob) 1
  = dataSum (run (map (submit_by (by_ alice 1000)) contributions) with_bob) 1.
Proof.
  apply (accumulator_is_order_independent (L := Clear.lib) (by_ alice 1000)
           contributions (rev contributions) with_bob);
    [exact Clear_add_comm | exact Clear_add_assoc | reflexivity | reflexivity
    | repeat constructor; vm_compute; intuition discriminate
    | exact contributions_can_submit
    | vm_compute; discriminate
    | apply Permutation_rev].
Defined.

(** A wrong proof and a short cleartext are both refused, and request 1 is
    still there to be answered. *)
Lemma rejected_answer_leaves_request_pending_witness :
  call (by_ bob 1300) (MyCallback 1 (word x0a) []) requested
  = (requested, Reverted Err.DecryptionFailed) /\
  call (by_ bob 1300) (MyCallback 1 [x0a%byte] [x01%byte]) requested
  = (requested, Reverted Err.DecodeError).
Proof.
  split.
  - apply (rejected_answer_leaves_request_pending (by_ bob 1300) 1
             (word x0a) [] requested); reflexivity.
  - apply (rejected_answer_leaves_request_pending (by_ bob 1300) 1
             [x0a%byte] [x01%byte] requested);
      [reflexivity | reflexivity | reflexivity | reflexivity
      | vm_compute; lia].
Defined.

(** The answer to request 1 is accepted from bob as from alice, and while
    the contract is paused. *)
Lemma myCallback_is_open_to_anyone_witness :
  snd (call (by_ bob 1300) (MyCallback 1 (word x0a) [x01%byte])
         (set_paused true requested))
  = snd (call (by_ alice 9000) (MyCallback 1 (word x0a) [x01%byte])
           requested).
Proof.
  rewrite (myCallback_is_open_to_anyone (by_ bob 1300) (by_ alice 9000) 1
             (word x0a) [x01%byte] requested true); reflexivity.
Defined.

Lemma request_then_resolve_witness :
  snd (call (by_ bob 1300) (MyCallback 1 (word x0a) [x01%byte])
         (fst (call (by_ alice 1100) RequestBatchResultDecryption
                 closed_once)))
  = Committed [Ev.DecryptionCompleted 1 1 10].
Proof.
  apply (request_then_resolve (by_ alice 1100) (by_ bob 1300) (word x0a)
           [x01%byte] 10 closed_once);
    [reflexivity | reflexivity | split; vm_compute; discriminate
    | reflexivity | vm_compute; discriminate | reflexivity | reflexivity
    | reflexivity | reflexivity].
Defined.

Lemma committed_call_emits_exactly_one_event_witness :
  exists ev,
    [Ev.DataSubmitted alice 1 10] = [ev] /\
    announced (by_ alice 1000) opened (SubmitData 10) ev.
Proof.
  apply (committed_call_emits_exactly_one_event (by_ alice 1000)
           (SubmitData 10) opened submitted_once).
  reflexivity.
Defined.

Lemma _requireInitialized_after_initIfNeeded_witness :
  _requireInitialized (L := Clear.lib) (_initIfNeeded FHE.zero_handle)
    deployed []
  = Return tt deployed [].
Proof.
  apply (_requireInitialized_after_initIfNeeded (L := Clear.lib)
           FHE.zero_handle deployed []).
  intros v k. change ((negb ((if v =? 0 then 1 else v) =? 0), 0).1 = true).
  cbn [fst]. by destruct (Z.eqb_spec v 0) as [->|Hv]; [|apply negb_true_iff, Z.eqb_neq].
Defined.
